(** * otomoto-scrapper: a shallow embedding of [scrapper.py]

    The development follows the source top to bottom: Python text and the
    library calls the scraper relies on, the [Car] dataclass with its
    [__post_init__], the retrying [fetch_html], the detail-page builder
    [fetch_car_details] with its nested [extract_data_testid_value], the
    Playwright routine [extract_vin_with_playwright], the batch loop of
    [scrape] and [transform_car_to_schema].

    Modelling conventions.
    - A Python [str] is a list of Unicode code points.  The Unicode tables
      behind [str.strip], [str.lower], [\d] and [\w], and the HTML parser
      behind [BeautifulSoup(html, "html.parser")], belong to the Python
      runtime and its libraries; they are the fields of [Platform].
    - A parsed document is a tree of tags and strings.  Comments and the
      contents of script or style elements, which [.text] skips, are not
      part of the tree.
    - Exceptions are the subclasses of [Exception]: the only ones the
      [except Exception] clauses of the source catch.
    - [await]ed effects (sleeps, browser sessions, gathered tasks) are
      recorded in a trace; the answers of the outside world (HTTP
      responses, browser behaviour) are given by oracles.
    - [int(s)] and [str(n)] are the mathematical conversions; CPython's
      configurable guard on the number of digits is not modelled.
    - The [User-Agent] drawn by [random.choice(USER_AGENTS)] is left out:
      the oracles answer whatever the header is.
    - Floating-point products are IEEE 754 binary64, computed exactly. *)

From Stdlib Require Import ZArith NArith List String Ascii Lia.
From Stdlib Require Import SpecFloat.
From stdpp Require Import base option list gmap.

Local Open Scope Z_scope.
Set Warnings "-register-all".

(** ** Python text *)

Abbreviation pystr := (list N).

(** An ASCII literal of the source as a list of code points. *)
Definition py (s : string) : list N :=
  N_of_ascii <$> list_ascii_of_string s.

Fixpoint drop_while {A} (f : A → bool) (l : list A) : list A :=
  match l with
  | [] => []
  | x :: l' => if f x then drop_while f l' else l
  end.

Fixpoint take_while {A} (f : A → bool) (l : list A) : list A :=
  match l with
  | [] => []
  | x :: l' => if f x then x :: take_while f l' else []
  end.

(** [s.startswith(p)] *)
Fixpoint startswith (p s : list N) : bool :=
  match p, s with
  | [], _ => true
  | _ :: _, [] => false
  | a :: p', b :: s' => if decide (a = b) then startswith p' s' else false
  end.

(** [sub in s] *)
Fixpoint contains (sub s : list N) : bool :=
  startswith sub s ||
  match s with
  | [] => false
  | _ :: s' => contains sub s'
  end.

(** [sep.join(parts)] *)
Fixpoint join (sep : list N) (parts : list (list N)) : list N :=
  match parts with
  | [] => []
  | [p] => p
  | p :: ps => p ++ sep ++ join sep ps
  end.

(** Truthiness of an optional string: [None] and [""] are falsy. *)
Definition truthy (o : option (list N)) : bool :=
  match o with
  | Some (_ :: _) => true
  | _ => false
  end.

(** [a or b] on optional strings. *)
Definition py_or (a b : option (list N)) : option (list N) :=
  if truthy a then a else b.

(** ** Parsed documents (BeautifulSoup trees) *)

(** A node is a string or a tag.  A tag has a name, the token list of its
    multi-valued [class] attribute (empty when the attribute is missing)
    and a dictionary of its single-valued attributes ([data-testid],
    [href], ...). *)
Inductive node :=
| NString (s : list N)
| NTag (name : list N) (class : list (list N))
       (attrs : gmap (list N) (list N)) (children : list node).

(** ** The runtime and library tables the source relies on *)

Class Platform := {
  (** whitespace removed by [str.strip()] *)
  isspace : N → bool;
  (** the characters matched by [\d] *)
  isdecimal : N → bool;
  (** the digit a [\d] character stands for in [int(...)] *)
  decimal_value : N → Z;
  (** the characters matched by [\w] *)
  isword : N → bool;
  (** [str.lower()] *)
  str_lower : list N → list N;
  (** [BeautifulSoup(html, "html.parser")]: the root of the parsed tree *)
  html_parser : list N → node
}.

(** ** Exceptions, effects and the monad of the embedding *)

(** The exceptions the program meets; all are subclasses of [Exception]. *)
Inductive exn :=
| ValueError
| AttributeError
| OverflowError
| ClientError      (* aiohttp transport and payload errors *)
| TimeoutError
| PlaywrightError
| OtherException (name : string).

Inductive result (A : Type) :=
| Ok (a : A)
| Raise (e : exn).
Arguments Ok {A} a.
Arguments Raise {A} e.

(** What the program is observed to do while it waits. *)
Inductive event :=
| Request (attempt : nat)       (* [session.get] of this attempt *)
| Sleep403                      (* [asyncio.sleep(5)] after a 403 *)
| SleepDelay (delay : Z)        (* [asyncio.sleep(delay)] in [fetch_html] *)
| SleepVinRetry                 (* [asyncio.sleep(5)] between VIN attempts *)
| SleepPage                     (* [asyncio.sleep(0.5)] before a listing page *)
| SleepBatch                    (* [asyncio.sleep(0.5)] between chunks *)
| PlaywrightEnter               (* [async with async_playwright()] entered *)
| PlaywrightExit                (* ... and left *)
| BrowserLaunch                 (* [p.chromium.launch] succeeded *)
| BrowserClose                  (* [browser.close()] returned *)
| Gather (tasks : list (list event)).
                                (* [asyncio.gather]: one trace per task *)

(** Length of a wait, in milliseconds. *)
Definition duration_ms (e : event) : Z :=
  match e with
  | Sleep403 | SleepVinRetry => 5000
  | SleepDelay d => 1000 * d
  | SleepPage | SleepBatch => 500
  | _ => 0
  end.

(** A computation yields the trace of its effects and a value or an
    exception. *)
Definition M (A : Type) : Type := list event * result A.

Definition ret {A} (a : A) : M A := ([], Ok a).
Definition raise {A} (e : exn) : M A := ([], Raise e).
Definition emit (ev : event) : M unit := ([ev], Ok tt).
Definition lift {A} (r : result A) : M A := ([], r).

Definition bind {A B} (m : M A) (k : A → M B) : M B :=
  match m with
  | (t, Ok a) => let '(t', r) := k a in (t ++ t', r)
  | (t, Raise e) => (t, Raise e)
  end.

Notation "'let*' x ':=' m 'in' k" := (bind m (fun x => k))
  (at level 10, x pattern, m at level 100, k at level 200,
   format "'[v' 'let*'  x  ':='  m  'in' '/' k ']'").
Notation "m ';;' k" := (bind m (fun _ => k))
  (at level 100, k at level 200, right associativity).

(** [try: body except Exception as e: handler(e)] *)
Definition try_except {A} (body : M A) (handler : exn → M A) : M A :=
  match body with
  | (t, Ok a) => (t, Ok a)
  | (t, Raise e) => let '(t', r) := handler e in (t ++ t', r)
  end.

(** [try: body finally: cleanup], the shape of a [with] block: the exit
    code runs on every way out of the body. *)
Definition finally {A} (body : M A) (cleanup : list event) : M A :=
  (body.1 ++ cleanup, body.2).

Definition trace {A} (m : M A) : list event := m.1.
Definition outcome {A} (m : M A) : result A := m.2.

(** ** BeautifulSoup queries *)

(** All nodes below [n], in document order. *)
Fixpoint descendants (n : node) : list node :=
  match n with
  | NString _ => []
  | NTag _ _ _ cs => flat_map (fun c => c :: descendants c) cs
  end.

(** The strings below (or at) [n], in document order. *)
Fixpoint strings (n : node) : list (list N) :=
  match n with
  | NString s => [s]
  | NTag _ _ _ cs => flat_map strings cs
  end.

(** [tag.text] *)
Definition text (n : node) : list N := concat (strings n).

Definition is_tag (n : node) : bool :=
  match n with NTag _ _ _ _ => true | NString _ => false end.

Definition tag_name (n : node) : option (list N) :=
  match n with NTag name _ _ _ => Some name | NString _ => None end.

Definition tag_class (n : node) : list (list N) :=
  match n with NTag _ cls _ _ => cls | NString _ => [] end.

(** [tag.get(key)] *)
Definition tag_get (key : list N) (n : node) : option (list N) :=
  match n with NTag _ _ attrs _ => attrs !! key | NString _ => None end.

(** The tag is called [name]. *)
Definition named (name : list N) (n : node) : bool :=
  bool_decide (tag_name n = Some name).

(** [{key: value}]: the attribute is present and equal to [value]. *)
Definition attr_is (key value : list N) (n : node) : bool :=
  bool_decide (tag_get key n = Some value).

(** [{key: re.compile(...)}]: the attribute is present and the pattern,
    given as a predicate on strings, is found in it. *)
Definition attr_matches (key : list N) (pat : list N → bool) (n : node) : bool :=
  match tag_get key n with
  | Some v => pat v
  | None => false
  end.

(** [key=True]: the attribute is present. *)
Definition has_attr (key : list N) (n : node) : bool :=
  bool_decide (is_Some (tag_get key n)).

(** [class_=c] for a string [c]: some token of the class attribute is
    [c], or the attribute as a whole is. *)
Definition class_is (c : list N) (n : node) : bool :=
  bool_decide (c ∈ tag_class n) || bool_decide (join (py " ") (tag_class n) = c).

(** [class_=re.compile(...)]: the pattern is found in some token of the
    class attribute, or in the attribute as a whole.  A tag without
    class tokens does not match. *)
Definition class_matches (pat : list N → bool) (n : node) : bool :=
  match tag_class n with
  | [] => false
  | cls => existsb pat cls || pat (join (py " ") cls)
  end.

(** [n.find_all(...)]: the descendants that pass the test, in document
    order. *)
Definition find_all (test : node → bool) (n : node) : list node :=
  filter (fun d => test d = true) (descendants n).

(** [n.find(...)]: the first of them, or [None]. *)
Definition find (test : node → bool) (n : node) : option node :=
  head (find_all test n).

(** [soup.select_one("span.c")] and [soup.select_one(".c")]: the first tag
    (called [span]) that has the class token [c]. *)
Definition has_class (c : list N) (n : node) : bool :=
  is_tag n && bool_decide (c ∈ tag_class n).

Definition select_one_span_class (c : list N) (soup : node) : option node :=
  find (fun n => named (py "span") n && has_class c n) soup.

Definition select_one_class (c : list N) (soup : node) : option node :=
  find (has_class c) soup.

(** [a or b] on optional tags: a tag is always truthy. *)
Definition tag_or (a b : option node) : option node :=
  match a with Some _ => a | None => b end.

(** ** Text operations that depend on the Unicode tables *)

Section Text.
Context `{Platform}.

(** [s.strip()] *)
Definition strip (s : list N) : list N :=
  reverse (drop_while isspace (reverse (drop_while isspace s))).

(** [tag.get_text(strip=True)]: each string stripped, the empty ones
    dropped, the rest concatenated. *)
Definition get_text_strip (n : node) : list N :=
  concat (filter (fun s => s ≠ []) (strip <$> strings n)).

(** [re.sub(r'\D', '', s)], also written [re.sub(r"[^\d]", "", s)]. *)
Definition only_digits (s : list N) : list N :=
  filter (fun c => isdecimal c = true) s.

(** [re.search(r'\d+', s)]: the group of the match, if any. *)
Definition search_digits (s : list N) : option (list N) :=
  match drop_while (fun c => negb (isdecimal c)) s with
  | [] => None
  | r => Some (take_while isdecimal r)
  end.

(** [re.search(r'\d{4}', s)]: the leftmost four consecutive digits. *)
Fixpoint search_4digits (s : list N) : option (list N) :=
  match s with
  | [] => None
  | c :: s' =>
      if forallb isdecimal (take 4 s) && bool_decide (length (take 4 s) = 4%nat)
      then Some (take 4 s)
      else search_4digits s'
  end.

(** [re.search(r'price-indicator-label-(\w+)', s)]: group 1 of the
    leftmost match. *)
Definition indicator_prefix : list N := py "price-indicator-label-".

Fixpoint search_indicator (s : list N) : option (list N) :=
  match s with
  | [] => None
  | _ :: s' =>
      let rest := drop (length indicator_prefix) s in
      if startswith indicator_prefix s && negb (bool_decide (take_while isword rest = []))
      then Some (take_while isword rest)
      else search_indicator s'
  end.

(** The number written by a string of decimal digits. *)
Definition digits_value (s : list N) : Z :=
  foldl (fun acc c => 10 * acc + decimal_value c) 0 s.

(** [int(s)] for a string of decimal digits, the only strings the
    program converts; the empty string is not a number. *)
Definition py_int (s : list N) : result Z :=
  match s with
  | [] => Raise ValueError
  | _ => Ok (digits_value s)
  end.
End Text.

(** [str(n)] for an integer. *)
Fixpoint str_pos_aux (fuel : nat) (n : Z) (acc : list N) : list N :=
  match fuel with
  | O => acc
  | S fuel' =>
      let acc' := Z.to_N (48 + n mod 10) :: acc in
      if n / 10 =? 0 then acc' else str_pos_aux fuel' (n / 10) acc'
  end.

Definition py_str (n : Z) : list N :=
  if n <? 0 then py "-" ++ str_pos_aux (Z.to_nat (Z.log2 (- n)) + 1) (- n) []
  else str_pos_aux (Z.to_nat (Z.log2 n) + 1) n [].

(** Sequencing of steps that may raise but leave no trace. *)
Definition and_then {A B} (r : result A) (k : A → result B) : result B :=
  match r with
  | Ok a => k a
  | Raise e => Raise e
  end.

Notation "'let?' x ':=' r 'in' k" := (and_then r (fun x => k))
  (at level 10, x pattern, r at level 100, k at level 200,
   format "'[v' 'let?'  x  ':='  r  'in' '/' k ']'").

(** ** binary64 arithmetic

    [price * 0.85] converts the integer to a float, multiplies and rounds
    to nearest even; [int(...)] truncates the product toward zero. *)

Definition prec : Z := 53.
Definition emax : Z := 1024.

(** The float nearest to an integer; an integer beyond the range of the
    floats raises [OverflowError]. *)
Definition float_of_int (n : Z) : result spec_float :=
  match binary_normalize prec emax n 0 false with
  | S754_infinity _ => Raise OverflowError
  | f => Ok f
  end.

Definition float_mul (x y : spec_float) : spec_float := SFmul prec emax x y.

(** [int(x)] for a float [x]. *)
Definition int_of_float (x : spec_float) : result Z :=
  match x with
  | S754_zero _ => Ok 0
  | S754_finite s m e =>
      let v := if 0 <=? e then Z.pos m * 2 ^ e else Z.pos m / 2 ^ (- e) in
      Ok (if s then - v else v)
  | S754_infinity _ => Raise OverflowError
  | S754_nan => Raise ValueError
  end.

(** The float literals of the source. *)
Definition f_0_85 : spec_float := S754_finite false 7656119366529843 (-53).
Definition f_0_9 : spec_float := S754_finite false 8106479329266893 (-53).
Definition f_1_1 : spec_float := S754_finite false 4953959590107546 (-52).
Definition f_1_15 : spec_float := S754_finite false 5179139571476070 (-52).

(** The float nearest to the fraction [n / d] of two small integers. *)
Definition nearest_float (n d : Z) : spec_float :=
  SFdiv prec emax (binary_normalize prec emax n 0 false)
                  (binary_normalize prec emax d 0 false).

(** [int(n * x)] for an integer [n] and a float [x]. *)
Definition int_times (n : Z) (x : spec_float) : result Z :=
  let? f := float_of_int n in int_of_float (float_mul f x).

(** ** The price range estimate (lines 235-252 of [fetch_car_details])

    The bounds computed for a price and the indicator type taken from the
    [data-testid] of the indicator label; [None] when the type is none of
    [ABOVE], [BELOW], [IN]. *)
Definition estimate (price : Z) (indicator_type : list N) : result (option (Z * Z)) :=
  if decide (indicator_type = py "ABOVE") then
    let? lower_bound := int_times price f_0_85 in
    Ok (Some (lower_bound, price))
  else if decide (indicator_type = py "BELOW") then
    let? upper_bound := int_times price f_1_15 in
    Ok (Some (price, upper_bound))
  else if decide (indicator_type = py "IN") then
    let? lower_bound := int_times price f_0_9 in
    let? upper_bound := int_times price f_1_1 in
    Ok (Some (lower_bound, upper_bound))
  else Ok None.

(** [f"{lower}-{upper} PLN"] *)
Definition format_range (b : Z * Z) : list N :=
  py_str b.1 ++ py "-" ++ py_str b.2 ++ py " PLN".

(** [except (ValueError, AttributeError)]: these two are handled, any
    other exception goes on. *)
Definition except_value_attribute {A} (body : result A) (handler : A) : result A :=
  match body with
  | Raise ValueError | Raise AttributeError => Ok handler
  | r => r
  end.

Section PriceRange.
Context `{Platform}.

(** The [try] block of lines 236-252: the price is read again from the
    text of the price tag, and [price_range] is assigned only when a
    branch runs to its end. *)
Definition estimate_price_range (indicator_type price_text : list N)
  : result (option (list N)) :=
  except_value_attribute
    (let? price := py_int (only_digits price_text) in
     let? bounds := estimate price indicator_type in
     Ok (format_range <$> bounds))
    None.
End PriceRange.

(** ** The [Car] dataclass *)

(** The ten leading fields have no default; the builder passes [None]
    for five of them when the page lacks the value, so they are optional
    here as well.  The fourteen fields declared [Optional[...] = None]
    follow. *)
Record Car := mkCar {
  link : list N;
  full_name : list N;
  description : list N;
  year : Z;
  mileage_km : option (list N);
  engine_capacity : option (list N);
  fuel_type : option (list N);
  price_pln : Z;
  make : option (list N);
  model : option (list N);
  door_count : option (list N);
  vin : option (list N);
  body_type : option (list N);
  color : option (list N);
  gearbox : option (list N);
  engine_power : option Z;
  date_registration : option (list N);
  transmission : option (list N);
  price_indicator : option (list N);
  price_range : option (list N);
  no_accident : option (list N);
  country_origin : option (list N);
  new_used : option (list N);
  registration_date_history : option (list N)
}.

(** [if self.x is None: self.x = d] *)
Definition if_none {A} (x : option A) (d : A) : option A :=
  match x with
  | None => Some d
  | Some _ => x
  end.

Definition unknown : list N := py "unknown".

(** [Car.__post_init__] *)
Definition post_init (self : Car) : Car :=
  {| link := link self;
     full_name := full_name self;
     description := description self;
     year := year self;
     mileage_km := mileage_km self;
     engine_capacity := engine_capacity self;
     fuel_type := fuel_type self;
     price_pln := price_pln self;
     make := make self;
     model := model self;
     door_count := if_none (door_count self) unknown;
     vin := if_none (vin self) unknown;
     body_type := if_none (body_type self) unknown;
     color := if_none (color self) unknown;
     gearbox := if_none (gearbox self) unknown;
     engine_power := if_none (engine_power self) 0;
     date_registration := if_none (date_registration self) unknown;
     transmission := if_none (transmission self) unknown;
     price_indicator := if_none (price_indicator self) unknown;
     price_range := if_none (price_range self) unknown;
     no_accident := if_none (no_accident self) unknown;
     country_origin := if_none (country_origin self) unknown;
     new_used := if_none (new_used self) (py "used");
     registration_date_history := if_none (registration_date_history self) unknown |}.

(** [Car(...)]: the generated [__init__] stores the arguments and calls
    [__post_init__]. *)
Definition new_Car
    (link full_name description : list N) (year : Z)
    (mileage_km engine_capacity fuel_type : option (list N)) (price_pln : Z)
    (make model door_count vin body_type color gearbox : option (list N))
    (engine_power : option Z)
    (date_registration transmission price_indicator price_range no_accident
     country_origin new_used registration_date_history : option (list N)) : Car :=
  post_init
    (mkCar link full_name description year mileage_km engine_capacity fuel_type
           price_pln make model door_count vin body_type color gearbox
           engine_power date_registration transmission price_indicator
           price_range no_accident country_origin new_used
           registration_date_history).

(** ** [fetch_html]

    The server is an oracle: what the [attempt]-th request of the call
    meets. *)
Inductive response :=
| Answers (status : Z) (body : result (list N))
    (* a response with this status; [body] is what [response.text()] gives *)
| Fails (e : exn).
    (* [session.get] raises *)

(** How one round of a loop ends. *)
Inductive flow (A : Type) :=
| Continue
| Return (a : A).
Arguments Continue {A}.
Arguments Return {A} a.

Definition sleep_if (c : bool) (ev : event) : M unit :=
  if c then emit ev else ret tt.

(** The body of the loop for one value of [attempt]. *)
Definition fetch_html_attempt (server : nat → response) (retries delay : Z)
    (attempt : nat) : M (flow (list N)) :=
  try_except
    (emit (Request attempt);;
     match server attempt with
     | Fails e => raise e
     | Answers status body =>
         if status =? 403 then
           emit Sleep403;; ret Continue
         else if negb (status =? 200) then
           sleep_if (Z.of_nat attempt <? retries - 1) (SleepDelay delay);;
           ret Continue
         else
           let* t := lift body in ret (Return t)
     end)
    (fun e =>
       sleep_if (Z.of_nat attempt <? retries - 1) (SleepDelay delay);;
       ret Continue).

(** [for attempt in attempts: ...] followed by [return ""]. *)
Fixpoint fetch_html_loop (server : nat → response) (retries delay : Z)
    (attempts : list nat) : M (list N) :=
  match attempts with
  | [] => ret (py "")
  | attempt :: rest =>
      let* r := fetch_html_attempt server retries delay attempt in
      match r with
      | Return t => ret t
      | Continue => fetch_html_loop server retries delay rest
      end
  end.

(** [range(n)] *)
Definition range (n : Z) : list nat := seq 0 (Z.to_nat n).

Definition fetch_html (server : nat → response) (retries delay : Z) : M (list N) :=
  fetch_html_loop server retries delay (range retries).

(** The defaults [retries=2, delay=1], used by every call in the source. *)
Definition fetch_html_default (server : nat → response) : M (list N) :=
  fetch_html server 2 1.

(** ** [extract_vin_with_playwright]

    The browser is an oracle as well: for each attempt, what every call of
    the Playwright API gives.  Each field is read at most once in an
    attempt. *)
Record browser_run := {
  pw_start : result unit;            (* entering [async_playwright()] *)
  launch : result unit;              (* [p.chromium.launch] *)
  new_context : result unit;         (* [browser.new_context] *)
  new_page : result unit;            (* [context.new_page] *)
  goto : result unit;                (* [page.goto], 30 s timeout *)
  consent_count : result Z;          (* [consent_button.count()] *)
  consent_click : result unit;       (* [consent_button.click()] *)
  consent_wait : result unit;        (* [page.wait_for_timeout(1000)] *)
  visible_count : result Z;          (* [vin_element.count()], line 327 *)
  visible_text : result (option (list N));   (* [text_content()], line 328 *)
  close_visible : result unit;       (* [browser.close()], line 329 *)
  button_count : result Z;           (* [vin_button.count()] *)
  evaluate : result unit;            (* [page.evaluate], the click *)
  wait_for_selector : result unit;   (* line 344, 10 s timeout *)
  revealed_count : result Z;         (* [vin_element.count()], line 346 *)
  revealed_text : result (option (list N));  (* [text_content()], line 347 *)
  close_revealed : result unit;      (* [browser.close()], line 348 *)
  close_final : result unit          (* [browser.close()], line 354 *)
}.

(** [await browser.close()]: the browser is closed when the call returns. *)
Definition browser_close (r : result unit) : M unit :=
  lift r;; emit BrowserClose.

Section Vin.
Context `{Platform}.

(** [vin.strip()] on what [text_content()] gave: [None] has no
    [strip]. *)
Definition strip_content (vin : option (list N)) : M (list N) :=
  match vin with
  | Some v => ret (strip v)
  | None => raise AttributeError
  end.

(** Lines 317-323: the cookie banner; whatever goes wrong is ignored. *)
Definition dismiss_consent (b : browser_run) : M unit :=
  try_except
    (let* n := lift (consent_count b) in
     if 0 <? n then lift (consent_click b);; lift (consent_wait b)
     else ret tt)
    (fun _ => ret tt).

(** Lines 343-352: wait for the VIN after the click. *)
Definition read_revealed (b : browser_run) : M (flow (option (list N))) :=
  try_except
    (lift (wait_for_selector b);;
     let* n := lift (revealed_count b) in
     if 0 <? n then
       let* vin := lift (revealed_text b) in
       browser_close (close_revealed b);;
       let* v := strip_content vin in
       ret (Return (Some v))
     else ret Continue)
    (fun _ => ret Continue).

(** Lines 306-355: the body of the [async with] block. *)
Definition vin_session (b : browser_run) : M (option (list N)) :=
  lift (launch b);;
  emit BrowserLaunch;;
  lift (new_context b);;
  lift (new_page b);;
  lift (goto b);;
  dismiss_consent b;;
  let* n := lift (visible_count b) in
  if 0 <? n then
    let* vin := lift (visible_text b) in
    browser_close (close_visible b);;
    let* v := strip_content vin in
    ret (Some v)
  else
    let* nb := lift (button_count b) in
    let* r := (if 0 <? nb then lift (evaluate b);; read_revealed b
               else ret Continue) in
    match r with
    | Return v => ret v
    | Continue => browser_close (close_final b);; ret None
    end.

(** Lines 304-355: [async with async_playwright() as p: ...].  The block
    is left through [__aexit__] on every way out once it was entered;
    leaving it stops the Playwright driver and with it the browser the
    block launched. *)
Definition vin_attempt (b : browser_run) : M (option (list N)) :=
  lift (pw_start b);;
  emit PlaywrightEnter;;
  finally (vin_session b) [PlaywrightExit].

(** [for attempt in attempts: try: ... except Exception: ...] *)
Fixpoint vin_loop (browser : nat → browser_run) (max_retries : Z)
    (attempts : list nat) : M (option (list N)) :=
  match attempts with
  | [] => ret None
  | attempt :: rest =>
      let* r :=
        try_except
          (let* v := vin_attempt (browser attempt) in ret (Return v))
          (fun e =>
             if Z.of_nat attempt <? max_retries
             then emit SleepVinRetry;; ret Continue
             else ret (Return None)) in
      match r with
      | Return v => ret v
      | Continue => vin_loop browser max_retries rest
      end
  end.

Definition extract_vin_with_playwright (browser : nat → browser_run)
  : M (option (list N)) :=
  let max_retries := 2 in
  vin_loop browser max_retries (range (max_retries + 1)).
End Vin.

(** ** [fetch_car_details] *)

(** What one call of [fetch_car_details] meets outside: the server that
    answers its requests and the browser its VIN attempts drive. *)
Record link_world := {
  server : nat → response;
  browser : nat → browser_run
}.

Definition data_testid : list N := py "data-testid".

(** ["\n"] *)
Definition newline : list N := [10%N].

(** The fuel names of line 194. *)
Definition fuel_names : list (list N) :=
  [py "benzyna"; py "diesel"; py "hybryda"; py "elektryczny"; py "lpg"; py "cng"].

(** The two legacy labels with non-ASCII letters: "skrzynia biegów" and
    "napęd". *)
Definition skrzynia_biegow : list N := py "skrzynia bieg" ++ [243%N] ++ py "w".
Definition naped : list N := py "nap" ++ [281%N] ++ py "d".

Section Builder.
Context `{Platform}.

(** The nested function of lines 151-159; [soup] is the variable it
    closes over. *)
Definition extract_data_testid_value (soup : node) (testid : list N)
  : option (list N) :=
  match find (fun n => named (py "div") n && attr_is data_testid testid n) soup with
  | Some tag =>
      let ps := find_all (named (py "p")) tag in
      if bool_decide (2 ≤ length ps)%nat
      then (fun p => strip (text p)) <$> last ps
      else None
  | None => None
  end.

(** Lines 186-195: the loop over the detail labels; a later label
    overwrites an earlier one of the same kind. *)
Definition detail_label_step
    (acc : option (list N) * option (list N) * option (list N)) (label : node)
  : option (list N) * option (list N) * option (list N) :=
  let '(fuel_type, mileage, engine_capacity) := acc in
  let text := get_text_strip label in
  if contains (py "km") text then (fuel_type, Some text, engine_capacity)
  else if contains (py "cm3") text then (fuel_type, mileage, Some text)
  else if bool_decide (str_lower text ∈ fuel_names)
       then (Some text, mileage, engine_capacity)
  else acc.

Definition detail_labels (soup : node) : list node :=
  find_all (fun n => named (py "p") n && class_matches (contains (py "ooa-11fwepm")) n) soup.

(** Lines 198-203: the legacy table. *)
Definition details_step (details : gmap (list N) (list N)) (div : node)
  : gmap (list N) (list N) :=
  let label := find (fun n => named (py "span") n && class_is (py "offer-params__label") n) div in
  let value := find (fun n => named (py "div") n && class_is (py "offer-params__value") n) div in
  match label, value with
  | Some label, Some value =>
      <[str_lower (strip (text label)) := strip (text value)]> details
  | _, _ => details
  end.

Definition legacy_details (soup : node) : gmap (list N) (list N) :=
  foldl details_step ∅
    (find_all (fun n => named (py "div") n && class_is (py "offer-params__item") n) soup).

(** Line 147, repeated at line 232. *)
Definition find_price_tag (soup : node) : option node :=
  tag_or (select_one_span_class (py "offer-price__number") soup)
         (select_one_class (py "offer-price") soup).

(** Line 148. *)
Definition parse_price (price_tag : option node) : result Z :=
  match price_tag with
  | Some t => py_int (only_digits (text t))
  | None => Ok 0
  end.

(** Lines 179-184. *)
Definition parse_power (engine_power_text : option (list N)) : result (option Z) :=
  if truthy engine_power_text then
    match search_digits (default [] engine_power_text) with
    | Some d => let? n := py_int d in Ok (Some n)
    | None => Ok None
    end
  else Ok None.

(** Lines 205-206. *)
Definition parse_year (year_text : option (list N)) : result Z :=
  if truthy year_text then
    match search_4digits (default [] year_text) with
    | Some d => py_int d
    | None => Ok 0
    end
  else Ok 0.

(** Lines 208-211: [not engine_power] holds for [None] and for [0]. *)
Definition power_fallback (engine_power : option Z) (moc : option (list N))
  : result (option Z) :=
  if bool_decide (engine_power = None ∨ engine_power = Some 0) && truthy moc then
    match search_digits (default [] moc) with
    | Some d => let? n := py_int d in Ok (Some n)
    | None => Ok engine_power
    end
  else Ok engine_power.

(** Lines 218-252: the indicator label and the estimated range. *)
Definition price_indicator_of (soup : node)
  : result (option (list N) * option (list N)) :=
  match find (fun n => named (py "p") n &&
                       attr_matches data_testid (contains indicator_prefix) n) soup with
  | Some price_indicator_tag =>
      let price_indicator := strip (text price_indicator_tag) in
      let testid := default [] (tag_get data_testid price_indicator_tag) in
      let indicator_match := search_indicator testid in
      let price_tag := find_price_tag soup in
      match indicator_match, price_tag with
      | Some indicator_type, Some price_tag =>
          let? price_range := estimate_price_range indicator_type (text price_tag) in
          Ok (Some price_indicator, price_range)
      | _, _ => Ok (Some price_indicator, None)
      end
  | None => Ok (None, None)
  end.

(** Lines 255-266: the static fallbacks for the VIN. *)
Definition static_vin (soup : node) (details : gmap (list N) (list N))
    (vin : option (list N)) : option (list N) :=
  if truthy vin then vin
  else
    let vin :=
      match find (fun n => named (py "div") n && attr_is data_testid (py "advert-vin") n) soup with
      | Some vin_div =>
          match find (named (py "p")) vin_div with
          | Some vin_p => Some (strip (text vin_p))
          | None => vin
          end
      | None => vin
      end in
    let vin := if truthy vin then vin else extract_data_testid_value soup (py "vin") in
    if negb (truthy vin) && truthy (details !! py "vin") then details !! py "vin"
    else vin.

(** [x if x else None] *)
Definition or_none (x : option (list N)) : option (list N) :=
  if truthy x then x else None.

(** The body of the [try] block, lines 136-294. *)
Definition build_car (w : link_world) (url : list N) : M Car :=
  let* html := fetch_html_default (server w) in
  let soup := html_parser html in
  let full_name :=
    match find (named (py "h1")) soup with
    | Some h1 => strip (text h1)
    | None => unknown
    end in
  let description :=
    match find (fun n => named (py "div") n &&
                         attr_is data_testid (py "content-description-section") n) soup with
    | Some desc_section =>
        join newline (get_text_strip <$> find_all (named (py "p")) desc_section)
    | None => py ""
    end in
  let* price_pln := lift (parse_price (find_price_tag soup)) in
  let make := extract_data_testid_value soup (py "make") in
  let model := extract_data_testid_value soup (py "model") in
  let door_count := extract_data_testid_value soup (py "door_count") in
  let body_type := extract_data_testid_value soup (py "body_type") in
  let color := extract_data_testid_value soup (py "color") in
  let gearbox := extract_data_testid_value soup (py "gearbox") in
  let date_registration := extract_data_testid_value soup (py "first_registration") in
  let no_accident := extract_data_testid_value soup (py "no_accident") in
  let transmission := extract_data_testid_value soup (py "transmission") in
  let country_origin := extract_data_testid_value soup (py "country_origin") in
  let new_used_status := extract_data_testid_value soup (py "new_used") in
  let registration_date_history := extract_data_testid_value soup (py "date_registration") in
  let* engine_power :=
    lift (parse_power (extract_data_testid_value soup (py "engine_power"))) in
  let '(fuel_type, mileage, engine_capacity) :=
    foldl detail_label_step (None, None, None) (detail_labels soup) in
  let details := legacy_details soup in
  let year_text :=
    py_or (details !! py "rok produkcji") (extract_data_testid_value soup (py "year")) in
  let* year := lift (parse_year year_text) in
  let* engine_power := lift (power_fallback engine_power (details !! py "moc")) in
  let* vin := extract_vin_with_playwright (browser w) in
  let* (price_indicator, price_range) := lift (price_indicator_of soup) in
  let vin := static_vin soup details vin in
  ret (new_Car url full_name description year
         (or_none mileage) (or_none engine_capacity) (or_none fuel_type)
         price_pln make model
         (py_or door_count (details !! py "liczba drzwi"))
         vin
         (py_or body_type (details !! py "nadwozie"))
         (py_or color (details !! py "kolor"))
         (py_or gearbox (details !! skrzynia_biegow))
         engine_power
         (py_or date_registration (details !! py "pierwsza rejestracja"))
         (py_or transmission (details !! naped))
         price_indicator price_range no_accident country_origin
         new_used_status registration_date_history).

(** [fetch_car_details]: whatever the body raises is turned into
    [None]. *)
Definition fetch_car_details (w : link_world) (url : list N) : M (option Car) :=
  try_except
    (let* car := build_car w url in ret (Some car))
    (fun e => ret None).
End Builder.

(** ** [extract_links_from_page] and [scrape] *)

Definition BASE_URL : list N := py "https://www.otomoto.pl/osobowe".

(** [asyncio.gather]: the tasks of a chunk run side by side and
    the caller goes on when all of them are done; the trace keeps one
    entry per task.  The results come in the order of the tasks.  Should
    a task raise, the exception reaches the caller. *)
Fixpoint collect {A} (rs : list (result A)) : result (list A) :=
  match rs with
  | [] => Ok []
  | r :: rs' =>
      let? a := r in
      let? l := collect rs' in
      Ok (a :: l)
  end.

Definition gather {A} (tasks : list (M A)) : M (list A) :=
  ([Gather (trace <$> tasks)], collect (outcome <$> tasks)).

(** [range(0, stop, step)] *)
Definition range_step (stop step : nat) : list nat :=
  (fun k => k * step)%nat <$> seq 0 ((stop + step - 1) / step)%nat.

Definition chunk_size : nat := 8.

Section Scrape.
Context `{Platform}.

(** One round of the loop of lines 124-131. *)
Definition link_of_article (article : node) : list (list N) :=
  match find (fun n => named (py "a") n && has_attr (py "href") n) article with
  | Some a_tag =>
      let link := strip (default [] (tag_get (py "href") a_tag)) in
      let link := if startswith (py "http") link then link
                  else py "https://www.otomoto.pl" ++ link in
      if contains (py "/oferta/") link then [link] else []
  | None => []
  end.

Definition extract_links_from_page (soup : node) : list (list N) :=
  flat_map link_of_article (find_all (named (py "article")) soup).

(** Lines 368-375: the listing pages, one after the other. *)
Fixpoint collect_links (pages : nat → nat → response) (all_links : list (list N))
    (page_numbers : list nat) : M (list (list N)) :=
  match page_numbers with
  | [] => ret all_links
  | page :: rest =>
      emit SleepPage;;
      let* html := fetch_html_default (pages page) in
      let soup := html_parser html in
      let page_links := extract_links_from_page soup in
      collect_links pages (all_links ++ page_links) rest
  end.

(** Lines 383-390: the chunks.  [worlds k] is what the task of the
    [k]-th link meets. *)
Fixpoint process_chunks (worlds : nat → link_world) (all_links : list (list N))
    (cars : list Car) (starts : list nat) : M (list Car) :=
  match starts with
  | [] => ret cars
  | i :: rest =>
      let chunk := take chunk_size (drop i all_links) in
      let tasks := imap (fun j link => fetch_car_details (worlds (i + j)%nat) link) chunk in
      let* chunk_results := gather tasks in
      let cars := cars ++ omap id chunk_results in
      sleep_if (bool_decide (i + chunk_size < length all_links)%nat) SleepBatch;;
      process_chunks worlds all_links cars rest
  end.

Definition process_links (worlds : nat → link_world) (all_links : list (list N))
  : M (list Car) :=
  process_chunks worlds all_links [] (range_step (length all_links) chunk_size).

(** [AsyncOtomotoScraper(max_pages).scrape()] *)
Definition scrape (max_pages : Z) (pages : nat → nat → response)
    (worlds : nat → link_world) : M (list Car) :=
  let* all_links := collect_links pages [] (seq 1 (Z.to_nat max_pages)) in
  process_links worlds all_links.

End Scrape.

(** ** [transform_car_to_schema] *)

(** The values of the output dictionary. *)
Inductive pyval :=
| VNone
| VInt (n : Z)
| VStr (s : list N)
| VDict (items : list (list N * pyval)).

Definition opt_str (o : option (list N)) : pyval :=
  match o with Some s => VStr s | None => VNone end.

Definition opt_int (o : option Z) : pyval :=
  match o with Some n => VInt n | None => VNone end.

(** [d[key]] *)
Fixpoint assoc (key : list N) (items : list (list N * pyval)) : option pyval :=
  match items with
  | [] => None
  | (k, v) :: items' => if decide (k = key) then Some v else assoc key items'
  end.

Definition get_item (key : list N) (d : pyval) : option pyval :=
  match d with
  | VDict items => assoc key items
  | _ => None
  end.

Section Transform.
Context `{Platform}.

(** [x.lower() if x else d] *)
Definition lower_or (x : option (list N)) (d : list N) : list N :=
  if truthy x then str_lower (default [] x) else d.

(** [re.sub(r"[^\d]", "", x) if x else ""] *)
Definition digits_or_empty (x : option (list N)) : list N :=
  if truthy x then only_digits (default [] x) else py "".

(** [x and x.lower() == word] *)
Definition lower_is (x : option (list N)) (word : list N) : bool :=
  truthy x && bool_decide (str_lower (default [] x) = word).

Definition transform_car_to_schema (car : Car) : pyval :=
  let no_accident_value := if lower_is (no_accident car) (py "tak") then 1 else 0 in
  VDict [
    (py "params", VDict [
      (py "door_count", opt_str (door_count car));
      (py "vin", opt_str (vin car));
      (py "make", VStr (lower_or (make car) (py "")));
      (py "model", VStr (lower_or (model car) (py "")));
      (py "is_imported_car", VInt 0);
      (py "fuel_type", VStr (lower_or (fuel_type car) (py "")));
      (py "no_accident", VInt no_accident_value);
      (py "body_type", opt_str (body_type car));
      (py "mileage", VStr (digits_or_empty (mileage_km car)));
      (py "color", opt_str (color car));
      (py "year", VStr (py_str (year car)));
      (py "price", VDict [
        (py "0", VStr (py "price"));
        (py "1", VStr (py_str (price_pln car)));
        (py "currency", VStr (py "PLN"));
        (py "gross_net", VStr (py "gross"))]);
      (py "engine_capacity", VStr (digits_or_empty (engine_capacity car)));
      (py "engine_power", opt_int (engine_power car));
      (py "gearbox", opt_str (gearbox car));
      (py "transmission", opt_str (transmission car));
      (py "antilock_brake_system", VNone);
      (py "apple_carplay", VNone);
      (py "metallic", VNone);
      (py "country_origin", VStr (lower_or (country_origin car) (py "pl")));
      (py "date_registration",
         opt_str (py_or (registration_date_history car) (date_registration car)));
      (py "has_registration", VInt 1);
      (py "cepik_authorization", VInt 1)]);
    (py "title", VStr (full_name car));
    (py "description", VStr (description car));
    (py "new_used", VStr (if lower_is (new_used car) (py "nowy") then py "new" else py "used"));
    (py "category_id", VInt 29);
    (py "url", VStr (link car));
    (py "price_indicator", opt_str (price_indicator car));
    (py "price_range", opt_str (price_range car))].
End Transform.

(** ** A platform to run the definitions on

    The tables of the Basic Latin block, on which every version of the
    Unicode tables agrees: the characters outside the block are taken to
    be neither spaces, digits nor word characters and to be left alone by
    [lower].  The examples below run on ASCII pages. *)

Definition between (lo hi c : N) : bool := ((lo <=? c) && (c <=? hi))%N.

Definition latin_isspace (c : N) : bool :=
  between 9 13 c || between 28 32 c.

Definition latin_isdecimal (c : N) : bool := between 48 57 c.

Definition latin_decimal_value (c : N) : Z := Z.of_N c - 48.

Definition latin_isword (c : N) : bool :=
  between 48 57 c || between 65 90 c || between 97 122 c || (c =? 95)%N.

Definition latin_lower (s : list N) : list N :=
  (fun c => if between 65 90 c then (c + 32)%N else c) <$> s.

Definition latin (parser : list N → node) : Platform :=
  {| isspace := latin_isspace;
     isdecimal := latin_isdecimal;
     decimal_value := latin_decimal_value;
     isword := latin_isword;
     str_lower := latin_lower;
     html_parser := parser |}.

(** Shorthands to write pages down. *)
Definition tag (name : string) (children : list node) : node :=
  NTag (py name) [] ∅ children.

Definition tag_id (name testid : string) (children : list node) : node :=
  NTag (py name) [] {[ data_testid := py testid ]} children.

Definition tag_class_ (name cls : string) (children : list node) : node :=
  NTag (py name) [py cls] ∅ children.

Definition str (s : string) : node := NString (py s).

Definition document (children : list node) : node :=
  NTag (py "[document]") [] ∅ children.

(** The page an empty string parses to. *)
Definition empty_document : node := document [].

(** ** Notions used to state the properties *)

(** The answer that ends the loop: status 200 with a body that could be
    read. *)
Definition success (r : response) : option (list N) :=
  match r with
  | Answers status (Ok t) =>
      if status =? 403 then None else if status =? 200 then Some t else None
  | _ => None
  end.

(** The wait that follows an attempt that did not end the loop: five
    seconds after a 403, [delay] after any other failure unless the
    attempt was the last one. *)
Definition wait_after (server : nat → response) (retries delay : Z) (attempt : nat)
  : list event :=
  match server attempt with
  | Answers status _ =>
      if status =? 403 then [Sleep403]
      else if Z.of_nat attempt <? retries - 1 then [SleepDelay delay] else []
  | Fails _ => if Z.of_nat attempt <? retries - 1 then [SleepDelay delay] else []
  end.

Definition failed_attempt (server : nat → response) (retries delay : Z) (attempt : nat)
  : list event :=
  Request attempt :: wait_after server retries delay attempt.

(** The server of the scenario: 403 to the first two requests, then 200. *)
Definition blocked_twice (body : list N) : nat → response := fun k =>
  match k with
  | 0%nat | 1%nat => Answers 403 (Ok (py "Forbidden"))
  | _ => Answers 200 (Ok body)
  end.

(** The chunks [l[i:i+c]] for [i] in [range(0, len(l), c)]. *)
Definition chunks {A} (c : nat) (l : list A) : list (list A) :=
  (fun i => take c (drop i l)) <$> range_step (length l) c.

(** The record a call of [fetch_car_details] hands back. *)
Definition record_of (m : M (option Car)) : option Car :=
  match outcome m with
  | Ok car => car
  | Raise _ => None
  end.

(** The first successful candidate of a fallback chain: the first that is
    neither [None] nor empty. *)
Fixpoint first_success (candidates : list (option (list N))) : option (list N) :=
  match candidates with
  | [] => None
  | c :: rest => if truthy c then c else first_success rest
  end.

Section Notions.
Context `{Platform}.

(** The tasks of the chunk that starts at [i]: their records and their
    traces. *)
Definition chunk_records (worlds : nat → link_world) (all_links : list (list N))
    (i : nat) : list (option Car) :=
  imap (fun j link => record_of (fetch_car_details (worlds (i + j)%nat) link))
       (take chunk_size (drop i all_links)).

Definition chunk_events (worlds : nat → link_world) (all_links : list (list N))
    (i : nat) : list event :=
  Gather (imap (fun j link => trace (fetch_car_details (worlds (i + j)%nat) link))
               (take chunk_size (drop i all_links)))
  :: (if bool_decide (i + chunk_size < length all_links)%nat then [SleepBatch] else []).

(** The number written by the first run of digits of a text, if the
    text is there and has one. *)
Definition first_number (text : option (list N)) : option Z :=
  if truthy text then digits_value <$> search_digits (default [] text) else None.

(** The text of the first paragraph of the static "advert-vin" block. *)
Definition advert_vin (soup : node) : option (list N) :=
  match find (fun n => named (py "div") n && attr_is data_testid (py "advert-vin") n) soup with
  | Some vin_div => (fun p => strip (text p)) <$> find (named (py "p")) vin_div
  | None => None
  end.
End Notions.




Definition browser_event (e : event) : Prop := e = BrowserLaunch ∨ e = BrowserClose.

Definition outside_event (e : event) : Prop :=
  match e with
  | PlaywrightEnter | PlaywrightExit | BrowserLaunch | BrowserClose => False
  | _ => True
  end.

(** ** Sample pages and worlds *)

(** A page with a title and a price and nothing else. *)
Definition bare_html : list N :=
  py "<h1>Audi A4</h1><span class='offer-price__number'>100 000 PLN</span>".

Definition bare_page : node :=
  document [tag "h1" [str "Audi A4"];
            tag_class_ "span" "offer-price__number" [str "100 000 PLN"]].

(** A page whose price tag holds no digit. *)
Definition ask_html : list N :=
  py "<h1>Audi A4</h1><span class='offer-price__number'>Zapytaj o cene</span>".

Definition ask_page : node :=
  document [tag "h1" [str "Audi A4"];
            tag_class_ "span" "offer-price__number" [str "Zapytaj o cene"]].

(** A page with a VIN in each of the static places. *)
Definition vin_html : list N :=
  py ("<h1>Audi A4</h1>" ++
      "<div data-testid='advert-vin'><p>WAUZZZ8K9DA000001</p></div>" ++
      "<div data-testid='vin'><p>VIN</p><p>WAUZZZ8K9DA000002</p></div>" ++
      "<div class='offer-params__item'><span class='offer-params__label'>VIN</span>" ++
      "<div class='offer-params__value'>WAUZZZ8K9DA000003</div></div>").

Definition vin_page : node :=
  document [tag "h1" [str "Audi A4"];
            tag_id "div" "advert-vin" [tag "p" [str "WAUZZZ8K9DA000001"]];
            tag_id "div" "vin" [tag "p" [str "VIN"]; tag "p" [str "WAUZZZ8K9DA000002"]];
            tag_class_ "div" "offer-params__item"
              [tag_class_ "span" "offer-params__label" [str "VIN"];
               tag_class_ "div" "offer-params__value" [str "WAUZZZ8K9DA000003"]]].

(** A page with a price and the indicator "below the average". *)
Definition below_html : list N :=
  py ("<h1>Audi A4</h1><span class='offer-price__number'>100 000 PLN</span>" ++
      "<p data-testid='price-indicator-label-BELOW'>Ponizej sredniej</p>").

Definition below_page : node :=
  document [tag "h1" [str "Audi A4"];
            tag_class_ "span" "offer-price__number" [str "100 000 PLN"];
            tag_id "p" "price-indicator-label-BELOW" [str "Ponizej sredniej"]].

(** A block with a single paragraph. *)
Definition one_paragraph_page : node :=
  document [tag_id "div" "make" [tag "p" [str " Audi "]]].

(** The usual block: a label paragraph and a value paragraph. *)
Definition two_paragraph_page : node :=
  document [tag "div" [tag "p" [str "Szczegoly"]];
            tag_id "div" "make" [tag "p" [str "Marka pojazdu"]; tag "p" [str " Audi "]];
            tag_id "div" "make" [tag "p" [str "Marka pojazdu"]; tag "p" [str "BMW"]]].

(** The parser on the sample pages; any other text is taken for an empty
    page, as the empty string is. *)
Definition sample_parser (html : list N) : node :=
  if decide (html = bare_html) then bare_page
  else if decide (html = ask_html) then ask_page
  else if decide (html = vin_html) then vin_page
  else if decide (html = below_html) then below_page
  else empty_document.

Definition sample : Platform := latin sample_parser.

(** A browser that cannot be started. *)
Definition no_browser : browser_run :=
  {| pw_start := Raise PlaywrightError; launch := Ok tt; new_context := Ok tt;
     new_page := Ok tt; goto := Ok tt; consent_count := Ok 0;
     consent_click := Ok tt; consent_wait := Ok tt; visible_count := Ok 0;
     visible_text := Ok None; close_visible := Ok tt; button_count := Ok 0;
     evaluate := Ok tt; wait_for_selector := Ok tt; revealed_count := Ok 0;
     revealed_text := Ok None; close_revealed := Ok tt; close_final := Ok tt |}.

(** A browser in which the VIN is on the page without a click. *)
Definition vin_shown (vin : list N) : browser_run :=
  {| pw_start := Ok tt; launch := Ok tt; new_context := Ok tt;
     new_page := Ok tt; goto := Ok tt; consent_count := Ok 0;
     consent_click := Ok tt; consent_wait := Ok tt; visible_count := Ok 1;
     visible_text := Ok (Some vin); close_visible := Ok tt; button_count := Ok 0;
     evaluate := Ok tt; wait_for_selector := Ok tt; revealed_count := Ok 0;
     revealed_text := Ok None; close_revealed := Ok tt; close_final := Ok tt |}.

(** A browser whose navigation times out. *)
Definition goto_times_out : browser_run :=
  {| pw_start := Ok tt; launch := Ok tt; new_context := Ok tt;
     new_page := Ok tt; goto := Raise TimeoutError; consent_count := Ok 0;
     consent_click := Ok tt; consent_wait := Ok tt; visible_count := Ok 0;
     visible_text := Ok None; close_visible := Ok tt; button_count := Ok 0;
     evaluate := Ok tt; wait_for_selector := Ok tt; revealed_count := Ok 0;
     revealed_text := Ok None; close_revealed := Ok tt; close_final := Ok tt |}.

(** A browser in which the page shows neither the VIN nor the button. *)
Definition no_vin_button : browser_run :=
  {| pw_start := Ok tt; launch := Ok tt; new_context := Ok tt;
     new_page := Ok tt; goto := Ok tt; consent_count := Ok 1;
     consent_click := Raise TimeoutError; consent_wait := Ok tt; visible_count := Ok 0;
     visible_text := Ok None; close_visible := Ok tt; button_count := Ok 0;
     evaluate := Ok tt; wait_for_selector := Ok tt; revealed_count := Ok 0;
     revealed_text := Ok None; close_revealed := Ok tt; close_final := Ok tt |}.

(** A browser in which the VIN appears after the click on the button. *)
Definition vin_revealed (vin : list N) : browser_run :=
  {| pw_start := Ok tt; launch := Ok tt; new_context := Ok tt;
     new_page := Ok tt; goto := Ok tt; consent_count := Ok 0;
     consent_click := Ok tt; consent_wait := Ok tt; visible_count := Ok 0;
     visible_text := Ok None; close_visible := Ok tt; button_count := Ok 1;
     evaluate := Ok tt; wait_for_selector := Ok tt; revealed_count := Ok 1;
     revealed_text := Ok (Some vin); close_revealed := Ok tt; close_final := Ok tt |}.

(** The world of a link whose page is served at once. *)
Definition world_of (html : list N) (run : browser_run) : link_world :=
  {| server := fun _ => Answers 200 (Ok html); browser := fun _ => run |}.

Definition sample_url : list N := py "https://www.otomoto.pl/osobowe/oferta/audi-a4".

(** The record of the bare sample page. *)
Definition bare_car : Car :=
  new_Car sample_url (py "Audi A4") (py "") 0 None None None 100000 None None
          None None None None None None None None None None None None None None.

(** The record of the sample page with the VINs, when the browser shows
    the VIN " WAUZZZ8K9DA123456 ". *)
Definition vin_car : Car :=
  new_Car sample_url (py "Audi A4") (py "") 0 None None None 0 None None
          None (Some (py "WAUZZZ8K9DA123456")) None None None None None None None
          None None None None None.

(** A car to try the transformer on. *)
Definition tak_car : Car :=
  new_Car sample_url (py "Audi A4") (py "") 2019 (Some (py "150 000 km"))
          (Some (py "1 968 cm3")) (Some (py "Diesel")) 100000 (Some (py "Audi"))
          (Some (py "A4")) None None None None None None None None None None
          (Some (py "Tak")) None (Some (py "Nowy")) None.

Definition nie_car : Car :=
  new_Car sample_url (py "Audi A4") (py "") 2019 None None None 100000 None None
          None None None None None None None None None None
          (Some (py "Nie")) (Some (py "")) (Some (py "Uzywany")) None.

(** Going through a computation step by step to show that a property
    holds of every event of its trace; [bind_rule] and [try_rule] are the
    rules for sequencing and for [try]. *)
Ltac trace_steps bind_rule try_rule :=
  repeat first
    [ match goal with
      | |- Forall _ (trace (lift _)) => exact (List.Forall_nil _)
      | |- Forall _ (trace (ret _)) => exact (List.Forall_nil _)
      | |- Forall _ (trace (raise _)) => exact (List.Forall_nil _)
      | |- Forall _ (trace (emit _)) =>
          apply List.Forall_cons;
          [first [left; reflexivity | right; reflexivity] | exact (List.Forall_nil _)]
      | |- Forall _ (trace (if ?c then _ else _)) => destruct c
      | |- Forall _ (trace (match ?r with _ => _ end)) => destruct r
      end
    | apply bind_rule; [|intros ?]
    | apply try_rule; [|intros ?] ].

(** ** Notions for the further properties *)

(** The site the relative links are resolved against (line 129). *)
Definition site_origin : list N := py "https://www.otomoto.pl".

(** The time a trace spends in [asyncio.sleep], in milliseconds. *)
Definition total_wait (t : list event) : Z :=
  foldr (fun e acc => duration_ms e + acc) 0 t.

(** The attempts whose request a trace shows, in order. *)
Definition requests (t : list event) : list nat :=
  omap (fun e => match e with Request k => Some k | _ => None end) t.

(** The number of events of a trace that pass a test. *)
Definition count_events (f : event → bool) (t : list event) : nat :=
  length (filter (fun e => f e = true) t).

Definition is_enter (e : event) : bool :=
  match e with PlaywrightEnter => true | _ => false end.

Definition is_vin_pause (e : event) : bool :=
  match e with SleepVinRetry => true | _ => false end.

Definition is_page_pause (e : event) : bool :=
  match e with SleepPage => true | _ => false end.

(** What [fetch_html] with its defaults hands back for a server. *)
Definition fetched (server : nat → response) : list N :=
  match outcome (fetch_html_default server) with
  | Ok html => html
  | Raise _ => py ""
  end.

Section FurtherNotions.
Context `{Platform}.

(** The links found on the listing page a server serves. *)
Definition page_links (pages : nat → nat → response) (page : nat) : list (list N) :=
  extract_links_from_page (html_parser (fetched (pages page))).

(** Every [\d] character stands for a digit from 0 to 9. *)
Definition digits_are_decimal : Prop :=
  ∀ c, isdecimal c = true → 0 ≤ decimal_value c ≤ 9.

(** The ASCII digits have their usual values. *)
Definition ascii_digits_valued : Prop :=
  ∀ d : Z, 0 ≤ d ≤ 9 → decimal_value (Z.to_N (48 + d)) = d.
End FurtherNotions.

(** ** A sample listing *)

Definition tag_href (name href : string) (children : list node) : node :=
  NTag (py name) [] {[ py "href" := py href ]} children.

(** Four articles: a relative advert link, an absolute one with spaces
    around it, a link that is no advert, and an article without a link. *)
Definition listing_html : list N :=
  py ("<article><a href='/osobowe/oferta/audi-a4-ID1.html'>Audi A4</a></article>" ++
      "<article><a href=' https://www.otomoto.pl/osobowe/oferta/bmw-ID2.html '>BMW" ++
      "</a></article><article><a href='/dealer/auto-plus'>Auto Plus</a></article>" ++
      "<article>Reklama</article>").

Definition listing_page : node :=
  document
    [tag "article" [tag_href "a" "/osobowe/oferta/audi-a4-ID1.html" [str "Audi A4"]];
     tag "article"
       [tag_href "a" " https://www.otomoto.pl/osobowe/oferta/bmw-ID2.html " [str "BMW"]];
     tag "article" [tag_href "a" "/dealer/auto-plus" [str "Auto Plus"]];
     tag "article" [str "Reklama"]].

Definition audi_link : list N :=
  py "https://www.otomoto.pl/osobowe/oferta/audi-a4-ID1.html".

Definition bmw_link : list N :=
  py "https://www.otomoto.pl/osobowe/oferta/bmw-ID2.html".

(** An advert with detail labels and a legacy table, some of them given
    twice. *)
Definition details_html : list N :=
  py ("<h1>Audi A4</h1><p class='ooa-11fwepm'>150 000 km</p>" ++
      "<p class='ooa-11fwepm'>1 984 cm3</p><p class='ooa-11fwepm'>Benzyna</p>" ++
      "<p class='ooa-11fwepm'>Diesel</p><p class='ooa-11fwepm'>200 000 km</p>" ++
      "<p class='ooa-11fwepm'>Automatyczna</p>" ++
      "<div class='offer-params__item'><span class='offer-params__label'>Rok produkcji" ++
      "</span><div class='offer-params__value'>2015</div></div>" ++
      "<div class='offer-params__item'><span class='offer-params__label'>Kolor</span>" ++
      "<div class='offer-params__value'> Czarny </div></div>" ++
      "<div class='offer-params__item'><span class='offer-params__label'>Rok Produkcji" ++
      "</span><div class='offer-params__value'>2016</div></div>" ++
      "<div class='offer-params__item'><span class='offer-params__label'>Moc</span></div>").

Definition params_item (children : list node) : node :=
  tag_class_ "div" "offer-params__item" children.

Definition params_label (s : string) : node :=
  tag_class_ "span" "offer-params__label" [str s].

Definition params_value (s : string) : node :=
  tag_class_ "div" "offer-params__value" [str s].

Definition details_page : node :=
  document
    [tag "h1" [str "Audi A4"];
     tag_class_ "p" "ooa-11fwepm" [str "150 000 km"];
     tag_class_ "p" "ooa-11fwepm" [str "1 984 cm3"];
     tag_class_ "p" "ooa-11fwepm" [str "Benzyna"];
     tag_class_ "p" "ooa-11fwepm" [str "Diesel"];
     tag_class_ "p" "ooa-11fwepm" [str "200 000 km"];
     tag_class_ "p" "ooa-11fwepm" [str "Automatyczna"];
     params_item [params_label "Rok produkcji"; params_value "2015"];
     params_item [params_label "Kolor"; params_value " Czarny "];
     params_item [params_label "Rok Produkcji"; params_value "2016"];
     params_item [params_label "Moc"]].

(** The parser on the sample listing, the sample advert and the sample
    pages. *)
Definition site_parser (html : list N) : node :=
  if decide (html = listing_html) then listing_page
  else if decide (html = details_html) then details_page
  else sample_parser html.

Definition site : Platform := latin site_parser.

Section PageNotions.
Context `{Platform}.

(** What the loop over the listing pages does for one page: the pause,
    then the requests of [fetch_html]. *)
Definition page_events (pages : nat → nat → response) (page : nat) : list event :=
  SleepPage :: trace (fetch_html_default (pages page)).

(** The links of the pages [1 .. max_pages], page after page. *)
Definition listed_links (max_pages : Z) (pages : nat → nat → response)
  : list (list N) :=
  flat_map (page_links pages) (seq 1 (Z.to_nat max_pages)).
End PageNotions.

Section TableNotions.
Context `{Platform}.

(** The items of the legacy table, and the entry an item stands for: its
    label, trimmed and in lower case, and its trimmed value.  An item
    without a label or without a value stands for nothing. *)
Definition detail_items (soup : node) : list node :=
  find_all (fun n => named (py "div") n && class_is (py "offer-params__item") n) soup.

Definition detail_entry (div : node) : option (list N * list N) :=
  match find (fun n => named (py "span") n && class_is (py "offer-params__label") n) div,
        find (fun n => named (py "div") n && class_is (py "offer-params__value") n) div with
  | Some label, Some value => Some (str_lower (strip (text label)), strip (text value))
  | _, _ => None
  end.

(** The values the table gives for a key, in document order. *)
Definition values_for (key : list N) (items : list node) : list (list N) :=
  omap (fun div =>
          match detail_entry div with
          | Some (k, v) => if decide (k = key) then Some v else None
          | None => None
          end) items.

(** The three kinds of detail labels, as the loop tells them apart. *)
Definition is_mileage (text : list N) : bool := contains (py "km") text.

Definition is_capacity (text : list N) : bool :=
  negb (contains (py "km") text) && contains (py "cm3") text.

Definition is_fuel (text : list N) : bool :=
  negb (contains (py "km") text) && negb (contains (py "cm3") text) &&
  bool_decide (str_lower text ∈ fuel_names).

(** The last text of a kind. *)
Definition last_of (kind : list N → bool) (texts : list (list N)) : option (list N) :=
  last (filter (fun t => kind t = true) texts).
End TableNotions.

(** Listing pages that all serve the sample listing, and the worlds of
    its links: the advert pages are unreachable and no browser starts. *)
Definition listing_pages : nat → nat → response :=
  fun _ _ => Answers 200 (Ok listing_html).

Definition unreachable : nat → response := fun _ => Fails ClientError.

Definition dead_worlds : nat → link_world :=
  fun _ => {| server := unreachable; browser := fun _ => no_browser |}.

(** The record of a link whose page has no node and whose VIN the
    browser could not read. *)
Definition placeholder (url : list N) : Car :=
  new_Car url unknown (py "") 0 None None None 0 None None
          None None None None None None None None None None None None None None.

(** * Properties *)

(** ** The monad *)

Lemma trace_bind {A B} (m : M A) (k : A → M B) :
  trace (bind m k) =
  match outcome m with
  | Ok a => trace m ++ trace (k a)
  | Raise _ => trace m
  end.
Proof. destruct m as [t [a|e]]; simpl; [destruct (k a)|]; reflexivity. Qed.

Lemma outcome_bind {A B} (m : M A) (k : A → M B) :
  outcome (bind m k) =
  match outcome m with
  | Ok a => outcome (k a)
  | Raise e => Raise e
  end.
Proof. destruct m as [t [a|e]]; simpl; [destruct (k a)|]; reflexivity. Qed.

Lemma trace_try_except {A} (body : M A) (handler : exn → M A) :
  trace (try_except body handler) =
  match outcome body with
  | Ok _ => trace body
  | Raise e => trace body ++ trace (handler e)
  end.
Proof. destruct body as [t [a|e]]; simpl; [|destruct (handler e)]; reflexivity. Qed.

Lemma outcome_try_except {A} (body : M A) (handler : exn → M A) :
  outcome (try_except body handler) =
  match outcome body with
  | Ok a => Ok a
  | Raise e => outcome (handler e)
  end.
Proof. destruct body as [t [a|e]]; simpl; [|destruct (handler e)]; reflexivity. Qed.

Lemma trace_lift {A} (r : result A) : trace (lift r) = [].
Proof. reflexivity. Qed.

Lemma outcome_lift {A} (r : result A) : outcome (lift r) = r.
Proof. reflexivity. Qed.

(** A property of events holds along a sequence of steps when it holds
    along each of them. *)
Lemma Forall_trace_bind {A B} (P : event → Prop) (m : M A) (k : A → M B) :
  Forall P (trace m) → (∀ a, Forall P (trace (k a))) → Forall P (trace (bind m k)).
Proof.
  intros Hm Hk. rewrite trace_bind. destruct (outcome m); [|assumption].
  apply Forall_app; split; [assumption | apply Hk].
Qed.

Lemma Forall_trace_try_except {A} (P : event → Prop) (body : M A) (handler : exn → M A) :
  Forall P (trace body) → (∀ e, Forall P (trace (handler e))) →
  Forall P (trace (try_except body handler)).
Proof.
  intros Hb Hh. rewrite trace_try_except. destruct (outcome body); [assumption|].
  apply Forall_app; split; [assumption | apply Hh].
Qed.

(** ** The price range estimate *)

(** The float literals are the floats nearest to the decimal fractions
    written in the source. *)
Lemma float_literals :
  nearest_float 85 100 = f_0_85 ∧ nearest_float 9 10 = f_0_9 ∧
  nearest_float 11 10 = f_1_1 ∧ nearest_float 115 100 = f_1_15.
Proof. vm_compute. repeat split. Qed.

Example estimate_in : estimate 100000 (py "IN") = Ok (Some (90000, 110000)).
Proof. vm_compute. reflexivity. Qed.

Example estimate_above : estimate 100000 (py "ABOVE") = Ok (Some (85000, 100000)).
Proof. vm_compute. reflexivity. Qed.

Example estimate_none : estimate 100000 (py "NONE") = Ok None.
Proof. vm_compute. reflexivity. Qed.

(** An indicator type other than the three known ones gives no range,
    whatever the price. *)
Lemma estimate_other (price : Z) (indicator_type : list N) :
  indicator_type ≠ py "ABOVE" → indicator_type ≠ py "BELOW" →
  indicator_type ≠ py "IN" → estimate price indicator_type = Ok None.
Proof.
  intros HA HB HI. unfold estimate.
  destruct (decide (indicator_type = py "ABOVE")); [contradiction|].
  destruct (decide (indicator_type = py "BELOW")); [contradiction|].
  destruct (decide (indicator_type = py "IN")); [contradiction|].
  reflexivity.
Qed.

(** A price beyond the range of the floats makes the product raise
    [OverflowError], which [except (ValueError, AttributeError)] lets
    through. *)
Example estimate_overflow :
  estimate (2 ^ 1024) (py "ABOVE") = Raise OverflowError.
Proof. vm_compute. reflexivity. Qed.

(** C8 (the code at the failing input): for the price 100000 and the
    indicator BELOW the program computes [int(100000 * 1.15)]; the float
    product is 114999.99999999998..., so the upper bound is 114999 and the
    record built from such a page reports the range "100000-114999 PLN",
    not the 100000-115000 the specification gives. *)
Theorem C8_estimate_below :
  estimate 100000 (py "BELOW") = Ok (Some (100000, 114999)) ∧
  int_times 100000 f_1_15 = Ok 114999 ∧
  match record_of (@fetch_car_details sample (world_of below_html no_browser) sample_url) with
  | Some car =>
      price_pln car = 100000 ∧ price_range car = Some (py "100000-114999 PLN")
  | None => False
  end.
Proof. vm_compute. repeat split. Qed.

(** ** [Car]: the defaults of [__post_init__] *)

Lemma if_none_is_Some {A} (x : option A) (d : A) : if_none x d = Some (default d x).
Proof. destruct x; reflexivity. Qed.

(** C3 (amended): a constructed record never has [None] in one of the
    fourteen attributes declared optional: each holds the value passed
    to the constructor, or its default ("unknown", 0, "used") when none
    was passed; built with no optional value, all fourteen hold their
    defaults.  The attributes mileage_km, engine_capacity, fuel_type, make
    and model have no default and hold what the constructor was given,
    which may be [None]. *)
Theorem C3_optional_attributes_resolved :
  ∀ (link' full_name' description' : list N) (year' : Z)
    (mileage_km' engine_capacity' fuel_type' : option (list N)) (price_pln' : Z)
    (make' model' door_count' vin' body_type' color' gearbox' : option (list N))
    (engine_power' : option Z)
    (date_registration' transmission' price_indicator' price_range' no_accident'
     country_origin' new_used' registration_date_history' : option (list N)),
    let car := new_Car link' full_name' description' year' mileage_km' engine_capacity'
                 fuel_type' price_pln' make' model' door_count' vin' body_type' color'
                 gearbox' engine_power' date_registration' transmission'
                 price_indicator' price_range' no_accident' country_origin' new_used'
                 registration_date_history' in
    let bare := new_Car link' full_name' description' year' mileage_km' engine_capacity'
                  fuel_type' price_pln' make' model' None None None None None None
                  None None None None None None None None in
    (car.(door_count) = Some (default unknown door_count') ∧
     car.(vin) = Some (default unknown vin') ∧
     car.(body_type) = Some (default unknown body_type') ∧
     car.(color) = Some (default unknown color') ∧
     car.(gearbox) = Some (default unknown gearbox') ∧
     car.(engine_power) = Some (default 0 engine_power') ∧
     car.(date_registration) = Some (default unknown date_registration') ∧
     car.(transmission) = Some (default unknown transmission') ∧
     car.(price_indicator) = Some (default unknown price_indicator') ∧
     car.(price_range) = Some (default unknown price_range') ∧
     car.(no_accident) = Some (default unknown no_accident') ∧
     car.(country_origin) = Some (default unknown country_origin') ∧
     car.(new_used) = Some (default (py "used") new_used') ∧
     car.(registration_date_history)
       = Some (default unknown registration_date_history')) ∧
    (bare.(door_count) = Some unknown ∧
     bare.(vin) = Some unknown ∧
     bare.(body_type) = Some unknown ∧
     bare.(color) = Some unknown ∧
     bare.(gearbox) = Some unknown ∧
     bare.(engine_power) = Some 0 ∧
     bare.(date_registration) = Some unknown ∧
     bare.(transmission) = Some unknown ∧
     bare.(price_indicator) = Some unknown ∧
     bare.(price_range) = Some unknown ∧
     bare.(no_accident) = Some unknown ∧
     bare.(country_origin) = Some unknown ∧
     bare.(new_used) = Some (py "used") ∧
     bare.(registration_date_history) = Some unknown) ∧
    (car.(mileage_km) = mileage_km' ∧
     car.(engine_capacity) = engine_capacity' ∧
     car.(fuel_type) = fuel_type' ∧
     car.(make) = make' ∧
     car.(model) = model').
Proof.
  intros. unfold car, bare, new_Car, post_init; simpl.
  rewrite !if_none_is_Some. repeat split.
Qed.

(** C3 (the claim as stated fails): the record built from a page without
    a make, a model, a mileage, a capacity or a fuel label holds [None]
    in these attributes, and the Schema Transformer reads them. *)
Lemma C3_counterexample :
  match record_of (@fetch_car_details sample (world_of bare_html no_browser) sample_url) with
  | Some car =>
      make car = None ∧ model car = None ∧ mileage_km car = None ∧
      engine_capacity car = None ∧ fuel_type car = None
  | None => False
  end.
Proof. vm_compute. repeat split. Qed.

(** ** [fetch_html]: which attempts are made and which waits follow *)

Lemma fetch_html_attempt_eq server retries delay attempt :
  fetch_html_attempt server retries delay attempt =
  match success (server attempt) with
  | Some t => ([Request attempt], Ok (Return t))
  | None => (failed_attempt server retries delay attempt, Ok Continue)
  end.
Proof.
  unfold fetch_html_attempt, failed_attempt, wait_after, success, sleep_if.
  destruct (server attempt) as [status [t|e]|e]; simpl;
    repeat (destruct (_ =? _); simpl); repeat (destruct (_ <? _); simpl);
    reflexivity.
Qed.

Lemma fetch_html_loop_all_fail server retries delay attempts :
  (∀ k, k ∈ attempts → success (server k) = None) →
  fetch_html_loop server retries delay attempts =
  (flat_map (failed_attempt server retries delay) attempts, Ok (py "")).
Proof.
  induction attempts as [|k rest IH]; intros Hfail; [reflexivity|].
  simpl. rewrite fetch_html_attempt_eq, (Hfail k) by constructor.
  rewrite IH by (intros j Hj; apply Hfail; constructor; exact Hj).
  reflexivity.
Qed.

Lemma fetch_html_loop_first_success server retries delay before k after body :
  (∀ j, j ∈ before → success (server j) = None) →
  success (server k) = Some body →
  fetch_html_loop server retries delay (before ++ k :: after) =
  (flat_map (failed_attempt server retries delay) before ++ [Request k], Ok body).
Proof.
  induction before as [|j rest IH]; intros Hfail Hk; simpl.
  - rewrite fetch_html_attempt_eq, Hk. reflexivity.
  - rewrite fetch_html_attempt_eq, (Hfail j) by constructor.
    simpl. rewrite IH; [|intros i Hi; apply Hfail; constructor; exact Hi|exact Hk].
    simpl. rewrite <- app_assoc. reflexivity.
Qed.

(** C2 (amended): every attempt uses up one of the [retries] rounds of
    the loop, whether it meets a 403, another status or a transport
    error.  When none of the first [retries] answers is a readable 200,
    exactly [retries] requests are made and the result is the empty
    string; otherwise the requests stop at the first readable 200 and its
    body is returned.  A 403 is followed by a flat wait of five seconds
    (longer than the default [delay] of one second), also after the last
    attempt; any other failure is followed by a wait of [delay] seconds,
    except after the last attempt.  With 403, 403, 200 and [retries = 3]
    the fetch succeeds after exactly two five-second waits and no [delay]
    wait. *)
Theorem C2_every_attempt_counts :
  ∀ (server : nat → response) (retries delay : Z),
    ((∀ k, (k < Z.to_nat retries)%nat → success (server k) = None) →
     fetch_html server retries delay =
     (flat_map (failed_attempt server retries delay) (range retries), Ok (py ""))) ∧
    (∀ k body, (k < Z.to_nat retries)%nat →
       (∀ j, (j < k)%nat → success (server j) = None) →
       success (server k) = Some body →
       fetch_html server retries delay =
       (flat_map (failed_attempt server retries delay) (seq 0 k) ++ [Request k], Ok body)) ∧
    (∀ k status body, server k = Answers status body → status = 403 →
       wait_after server retries delay k = [Sleep403]) ∧
    (∀ k, success (server k) = None →
       (∀ body, server k ≠ Answers 403 body) →
       wait_after server retries delay k =
       if Z.of_nat k <? retries - 1 then [SleepDelay delay] else []) ∧
    (duration_ms Sleep403 = 5000 ∧ duration_ms (SleepDelay 1) = 1000) ∧
    (∀ body,
       fetch_html (blocked_twice body) 3 delay =
       ([Request 0; Sleep403; Request 1; Sleep403; Request 2], Ok body)).
Proof.
  intros server retries delay. repeat split.
  - intros Hfail. unfold fetch_html. apply fetch_html_loop_all_fail.
    intros k Hk. apply Hfail. unfold range in Hk.
    apply elem_of_seq in Hk. lia.
  - intros k body Hk Hbefore Hsucc. unfold fetch_html, range.
    replace (Z.to_nat retries) with (k + S (Z.to_nat retries - S k))%nat by lia.
    rewrite seq_app. simpl.
    apply fetch_html_loop_first_success; [|exact Hsucc].
    intros j Hj. apply Hbefore. apply elem_of_seq in Hj. lia.
  - intros k status body Hk ->. unfold wait_after. rewrite Hk. reflexivity.
  - intros k Hnone Hnot. unfold wait_after.
    destruct (server k) as [status body|e]; [|reflexivity].
    destruct (status =? 403) eqn:E; [|reflexivity].
    apply Z.eqb_eq in E. subst. exfalso. apply (Hnot body). reflexivity.
Qed.

(** C2 (the claim as stated fails): with [retries = 2] the two 403
    answers use up both attempts, the third request, which would have
    been answered 200, is never made, and the result is empty; with
    [delay = 10] the five-second wait after a 403 is the shorter one; and
    after the last failed attempt there is no wait at all. *)
Lemma C2_counterexample :
  let server := blocked_twice (py "<html></html>") in
  (success (server 2%nat) = Some (py "<html></html>") ∧
   fetch_html server 2 1 = ([Request 0; Sleep403; Request 1; Sleep403], Ok (py ""))) ∧
  duration_ms Sleep403 < duration_ms (SleepDelay 10) ∧
  fetch_html (fun _ => Answers 500 (Ok (py "error"))) 2 1
  = ([Request 0; SleepDelay 1; Request 1], Ok (py "")).
Proof. vm_compute. repeat split. Qed.

Lemma C2_witness :
  fetch_html (fun _ => Fails ClientError) 2 1
  = ([Request 0; SleepDelay 1; Request 1], Ok (py "")) ∧
  fetch_html (blocked_twice (py "<html></html>")) 3 1
  = ([Request 0; Sleep403; Request 1; Sleep403; Request 2], Ok (py "<html></html>")).
Proof.
  split.
  - apply (proj1 (C2_every_attempt_counts (fun _ => Fails ClientError) 2 1)).
    intros k Hk. reflexivity.
  - apply (proj1 (proj2 (C2_every_attempt_counts
                           (blocked_twice (py "<html></html>")) 3 1)) 2%nat).
    + simpl. lia.
    + intros j Hj. destruct j as [|[|j]]; [reflexivity|reflexivity|lia].
    + reflexivity.
Defined.

(** [fetch_html] never raises: it returns the empty string or a body the
    server sent with status 200 to one of the attempts. *)
Lemma fetch_html_loop_returns server retries delay attempts :
  ∃ html, outcome (fetch_html_loop server retries delay attempts) = Ok html ∧
          (html = py "" ∨ ∃ k, k ∈ attempts ∧ success (server k) = Some html).
Proof.
  induction attempts as [|k rest (html & Hout & Hhtml)]; simpl.
  - exists (py ""). split; [reflexivity | left; reflexivity].
  - rewrite outcome_bind, fetch_html_attempt_eq.
    destruct (success (server k)) as [t|] eqn:Hk; simpl.
    + exists t. split; [reflexivity|]. right. exists k. split; [constructor | exact Hk].
    + exists html. split; [exact Hout|].
      destruct Hhtml as [->|(j & Hj & Hs)]; [left; reflexivity|].
      right. exists j. split; [constructor; exact Hj | exact Hs].
Qed.

Lemma fetch_html_returns server retries delay :
  ∃ html, outcome (fetch_html server retries delay) = Ok html ∧
          (html = py "" ∨
           ∃ k, (k < Z.to_nat retries)%nat ∧ success (server k) = Some html).
Proof.
  destruct (fetch_html_loop_returns server retries delay (range retries))
    as (html & Hout & Hhtml).
  exists html. split; [exact Hout|].
  destruct Hhtml as [->|(k & Hk & Hs)]; [left; reflexivity|].
  right. exists k. split; [|exact Hs].
  unfold range in Hk. apply elem_of_seq in Hk. lia.
Qed.

(** ** Chunks *)

Lemma drop_imap {A B} (g : nat → A → B) (l : list A) (i : nat) :
  drop i (imap g l) = imap (fun j => g (i + j)%nat) (drop i l).
Proof.
  revert g l. induction i as [|i IH]; intros g l; [reflexivity|].
  destruct l as [|x l]; [reflexivity|]. simpl. apply IH.
Qed.

Lemma take_imap {A B} (g : nat → A → B) (l : list A) (c : nat) :
  take c (imap g l) = imap g (take c l).
Proof.
  revert g l. induction c as [|c IH]; intros g l; [reflexivity|].
  destruct l as [|x l]; [reflexivity|]. simpl. f_equal. apply IH.
Qed.

Lemma chunks_by_count {A} (c m : nat) (l : list A) :
  (length l ≤ m * c)%nat →
  concat ((fun k => take c (drop (k * c) l)) <$> seq 0 m) = l.
Proof.
  revert l. induction m as [|m IH]; intros l Hlen.
  - destruct l; [reflexivity | simpl in Hlen; lia].
  - rewrite <- cons_seq, <- fmap_S_seq. simpl. rewrite <- list_fmap_compose.
    transitivity (take c l ++ drop c l); [|apply take_drop].
    f_equal. etransitivity; [|apply (IH (drop c l)); rewrite length_drop; lia].
    f_equal. apply list_fmap_ext. intros _ k _. simpl.
    rewrite drop_drop. reflexivity.
Qed.

Lemma concat_chunks {A} (c : nat) (l : list A) :
  (0 < c)%nat → concat (chunks c l) = l.
Proof.
  intros Hc. unfold chunks, range_step. rewrite <- list_fmap_compose.
  apply chunks_by_count.
  pose proof (Nat.div_mod_eq (length l + c - 1) c) as E.
  pose proof (Nat.mod_upper_bound (length l + c - 1) c) as U. nia.
Qed.

Lemma length_chunks {A} (c : nat) (l : list A) :
  length (chunks c l) = ((length l + c - 1) / c)%nat.
Proof. unfold chunks, range_step. rewrite !length_fmap, length_seq. reflexivity. Qed.

Lemma lookup_chunks {A} (c : nat) (l : list A) (k : nat) (chunk : list A) :
  chunks c l !! k = Some chunk → chunk = take c (drop (k * c) l).
Proof.
  unfold chunks, range_step. rewrite <- list_fmap_compose, list_lookup_fmap.
  intros Hk. apply fmap_Some in Hk as (j & Hj & ->).
  apply lookup_seq in Hj as [-> _]. reflexivity.
Qed.

(** Every chunk holds at least one and at most [c] elements, and every
    chunk but the last holds exactly [c]. *)
Lemma chunk_sizes {A} (c : nat) (l : list A) (k : nat) (chunk : list A) :
  (0 < c)%nat → chunks c l !! k = Some chunk →
  (1 ≤ length chunk ≤ c)%nat ∧
  (S k < length (chunks c l) → length chunk = c)%nat.
Proof.
  intros Hc Hk. pose proof (lookup_lt_Some _ _ _ Hk) as Hlt.
  apply lookup_chunks in Hk as ->. rewrite length_chunks in *.
  rewrite length_take, length_drop.
  pose proof (Nat.div_mod_eq (length l + c - 1) c) as E.
  pose proof (Nat.mod_upper_bound (length l + c - 1) c) as U.
  split; [split|intros Hlast]; nia.
Qed.

Lemma chunks_17 {A} (l : list A) :
  length l = 17%nat → length <$> chunks 8 l = [8; 8; 1]%nat.
Proof.
  intros Hl. unfold chunks. rewrite Hl. simpl.
  rewrite !length_take, !length_drop, Hl. reflexivity.
Qed.

(** A start [i] of [range(0, n, c)] has a chunk after it exactly when
    [i + c < n], the test of line 389. *)
Lemma range_step_not_last (n c : nat) (before after : list nat) (i : nat) :
  (0 < c)%nat → range_step n c = before ++ i :: after →
  (i + c < n)%nat ↔ after ≠ [].
Proof.
  intros Hc Hsplit.
  assert (Hlen : length (range_step n c) = (length before + S (length after))%nat).
  { rewrite Hsplit, length_app. reflexivity. }
  assert (Hi : range_step n c !! length before = Some i).
  { rewrite Hsplit. apply list_lookup_middle. reflexivity. }
  unfold range_step in Hlen, Hi. rewrite length_fmap, length_seq in Hlen.
  rewrite list_lookup_fmap in Hi. apply fmap_Some in Hi as (j & Hj & ->).
  apply lookup_seq in Hj as [-> _]. simpl.
  pose proof (Nat.div_mod_eq (n + c - 1) c) as E.
  pose proof (Nat.mod_upper_bound (n + c - 1) c) as U.
  destruct after as [|a after]; simpl in Hlen; split; intros Hx; try congruence; nia.
Qed.

(** ** [fetch_car_details] and the batch loop never raise *)

Section Isolation.
Context `{Platform}.

Lemma fetch_car_details_outcome (w : link_world) (url : list N) :
  outcome (fetch_car_details w url) =
  match outcome (build_car w url) with
  | Ok car => Ok (Some car)
  | Raise _ => Ok None
  end.
Proof.
  unfold fetch_car_details. rewrite outcome_try_except, outcome_bind.
  destruct (outcome (build_car w url)); reflexivity.
Qed.

Lemma fetch_car_details_returns (w : link_world) (url : list N) :
  outcome (fetch_car_details w url) = Ok (record_of (fetch_car_details w url)).
Proof.
  unfold record_of. rewrite fetch_car_details_outcome.
  destruct (outcome (build_car w url)); reflexivity.
Qed.

Lemma collect_all_ok {A B} (f : nat → A → result B) (h : nat → A → B) (l : list A) :
  (∀ j x, f j x = Ok (h j x)) → collect (imap f l) = Ok (imap h l).
Proof.
  revert f h. induction l as [|x l IH]; intros f h Hf; [reflexivity|].
  simpl. rewrite Hf, (IH (f ∘ S) (h ∘ S)) by (intros; apply Hf). reflexivity.
Qed.

Lemma process_chunks_eq worlds all_links cars starts :
  process_chunks worlds all_links cars starts =
  (flat_map (chunk_events worlds all_links) starts,
   Ok (cars ++ flat_map (fun i => omap id (chunk_records worlds all_links i)) starts)).
Proof.
  revert cars. induction starts as [|i rest IH]; intros cars; simpl.
  - rewrite app_nil_r. reflexivity.
  - unfold gather. rewrite !fmap_imap.
    rewrite (collect_all_ok _ (fun j x => record_of
               (fetch_car_details (worlds (i + j)%nat) x)))
      by (intros; apply fetch_car_details_returns).
    fold (chunk_records worlds all_links i).
    unfold sleep_if. destruct (bool_decide _); simpl; rewrite IH;
      rewrite <- app_assoc; reflexivity.
Qed.

Lemma omap_flat_map {A B C} (f : B → option C) (g : A → list B) (l : list A) :
  flat_map (fun a => omap f (g a)) l = omap f (flat_map g l).
Proof.
  induction l as [|a l IH]; [reflexivity|].
  simpl. rewrite omap_app, IH. reflexivity.
Qed.

Lemma flat_map_concat {A B} (g : A → list B) (l : list A) :
  flat_map g l = concat (g <$> l).
Proof. induction l as [|a l IH]; [reflexivity|]. simpl. rewrite IH. reflexivity. Qed.

(** The records of the chunks, put end to end, are the records of all
    the links. *)
Lemma chunk_records_all worlds all_links :
  flat_map (chunk_records worlds all_links) (range_step (length all_links) chunk_size)
  = imap (fun k link => record_of (fetch_car_details (worlds k) link)) all_links.
Proof.
  set (g := fun k link => record_of (fetch_car_details (worlds k) link)).
  transitivity (concat (chunks chunk_size (imap g all_links))).
  - rewrite flat_map_concat. unfold chunks. rewrite length_imap.
    f_equal. apply list_fmap_ext. intros _ i _.
    unfold chunk_records. rewrite drop_imap, take_imap. reflexivity.
  - apply concat_chunks. unfold chunk_size. lia.
Qed.


Lemma process_links_eq worlds all_links :
  process_links worlds all_links =
  (flat_map (chunk_events worlds all_links) (range_step (length all_links) chunk_size),
   Ok (omap id (imap (fun k link => record_of (fetch_car_details (worlds k) link))
                     all_links))).
Proof.
  unfold process_links. rewrite process_chunks_eq. simpl.
  rewrite omap_flat_map, chunk_records_all. reflexivity.
Qed.

End Isolation.


(** C7: the batch loop.  The links are cut into consecutive chunks of 8,
    the last one possibly shorter (17 links give chunks of 8, 8 and 1).
    The trace of the loop is, chunk after chunk, one [Gather] that holds
    the finished trace of one task for every link of the chunk, followed
    by the pause [SleepBatch] exactly when another chunk comes after it.
    Every link is given to exactly one task; the records of the tasks
    that produced one are returned in the order of the links and the
    [None] results are left out, whatever the other tasks of the chunk
    did. *)
Theorem C7_batch_schedule :
  ∀ (P : Platform) (worlds : nat → link_world) (links : list (list N)),
    let starts := range_step (length links) chunk_size in
    concat (chunks chunk_size links) = links ∧
    (∀ k chunk, chunks chunk_size links !! k = Some chunk →
       chunk = take 8 (drop (k * 8) links) ∧
       (1 ≤ length chunk ≤ 8)%nat ∧
       (S k < length (chunks chunk_size links) → length chunk = 8)%nat) ∧
    (length links = 17%nat → length <$> chunks chunk_size links = [8; 8; 1]%nat) ∧
    trace (process_links worlds links) =
      flat_map (fun i =>
        Gather (imap (fun j link => trace (fetch_car_details (worlds (i + j)%nat) link))
                     (take 8 (drop i links)))
        :: (if bool_decide (i + 8 < length links)%nat then [SleepBatch] else []))
        starts ∧
    (∀ before i after, starts = before ++ i :: after →
       (i + 8 < length links)%nat ↔ after ≠ []) ∧
    outcome (process_links worlds links) =
      Ok (omap id (imap (fun k link => record_of (fetch_car_details (worlds k) link))
                        links)).
Proof.
  intros P worlds links starts. repeat apply conj.
  - apply concat_chunks. unfold chunk_size. lia.
  - intros k chunk Hk. split; [apply (lookup_chunks _ _ _ _ Hk)|].
    apply (chunk_sizes chunk_size links k chunk); [unfold chunk_size; lia | exact Hk].
  - apply chunks_17.
  - rewrite process_links_eq. reflexivity.
  - intros before i after Hsplit.
    apply (range_step_not_last (length links) chunk_size before after i);
      [unfold chunk_size; lia | exact Hsplit].
  - rewrite process_links_eq. reflexivity.
Qed.

Lemma C7_witness :
  length <$> chunks chunk_size (replicate 17 sample_url) = [8; 8; 1]%nat.
Proof.
  destruct (C7_batch_schedule sample (fun _ => world_of bare_html no_browser)
              (replicate 17 sample_url)) as (_ & _ & H17 & _).
  apply H17. reflexivity.
Defined.

(** Seventeen links: three gatherings of 8, 8 and 1 tasks, with a pause
    (written 0 below) after the first and after the second. *)
Example seventeen_links :
  (fun e => match e with
            | Gather tasks => Some (length tasks)
            | SleepBatch => Some 0%nat
            | _ => None
            end)
    <$> trace (@process_links sample (fun _ => world_of bare_html no_browser)
                 (replicate 17 sample_url))
  = [Some 8; Some 0; Some 8; Some 0; Some 1]%nat.
Proof. vm_compute. reflexivity. Qed.

(** In a batch, the dropped record does not take the others with it. *)
Example dropped_record_in_a_batch :
  let worlds := fun k => match k with
                         | 1%nat => world_of ask_html no_browser
                         | _ => world_of bare_html no_browser
                         end in
  match outcome (@process_links sample worlds [sample_url; sample_url; sample_url]) with
  | Ok cars => length cars = 2%nat
  | Raise _ => False
  end.
Proof. vm_compute. reflexivity. Qed.

(** ** Text: trimming and digit runs *)

Lemma head_drop_while {A} (f : A → bool) (l : list A) (c : A) :
  head (drop_while f l) = Some c → f c = false.
Proof.
  induction l as [|x l IH]; simpl; [discriminate|].
  destruct (f x) eqn:E; [exact IH|]. simpl. intros [= <-]. exact E.
Qed.

Lemma last_drop_while {A} (f : A → bool) (l : list A) :
  drop_while f l ≠ [] → last (drop_while f l) = last l.
Proof.
  induction l as [|x l IH]; simpl; [reflexivity|].
  destruct (f x); [|reflexivity]. intros Hne. rewrite IH by exact Hne.
  destruct l; [contradiction | reflexivity].
Qed.

Lemma drop_while_split {A} (f : A → bool) (l : list A) :
  ∃ pre, l = pre ++ drop_while f l ∧ Forall (fun x => f x = true) pre.
Proof.
  induction l as [|x l (pre & Hl & Hpre)]; simpl.
  - exists []. split; [reflexivity | constructor].
  - destruct (f x) eqn:E.
    + exists (x :: pre). split; [simpl; f_equal; exact Hl | constructor; assumption].
    + exists []. split; [reflexivity | constructor].
Qed.

Lemma take_while_split {A} (f : A → bool) (l : list A) :
  l = take_while f l ++ drop_while f l ∧ Forall (fun x => f x = true) (take_while f l).
Proof.
  induction l as [|x l [Hl Hall]]; simpl; [split; [reflexivity | constructor]|].
  destruct (f x) eqn:E; simpl.
  - split; [f_equal; exact Hl | constructor; assumption].
  - split; [reflexivity | constructor].
Qed.

Section TextFacts.
Context `{Platform}.

(** A stripped string neither begins nor ends with a space. *)
Lemma strip_trimmed (s : list N) :
  (∀ c, head (strip s) = Some c → isspace c = false) ∧
  (∀ c, last (strip s) = Some c → isspace c = false).
Proof.
  unfold strip. set (t := drop_while isspace s).
  set (r := drop_while isspace (reverse t)). split; intros c Hc.
  - rewrite <- last_reverse, reverse_involutive in Hc.
    destruct (decide (r = [])) as [Hr|Hr]; [rewrite Hr in Hc; discriminate|].
    unfold r in Hc. rewrite last_drop_while in Hc by exact Hr.
    rewrite last_reverse in Hc. apply (head_drop_while _ _ _ Hc).
  - rewrite last_reverse in Hc. apply (head_drop_while _ _ _ Hc).
Qed.

(** What [strip] removes are spaces at both ends. *)
Lemma strip_split (s : list N) :
  ∃ pre post, s = pre ++ strip s ++ post ∧
              Forall (fun c => isspace c = true) pre ∧
              Forall (fun c => isspace c = true) post.
Proof.
  unfold strip.
  destruct (drop_while_split isspace s) as (pre & Hs & Hpre).
  destruct (drop_while_split isspace (reverse (drop_while isspace s)))
    as (post & Hr & Hpost).
  exists pre, (reverse post). split; [|split].
  - rewrite Hs at 1. f_equal.
    rewrite <- (reverse_involutive (drop_while isspace s)) at 1.
    rewrite Hr at 1. rewrite reverse_app. reflexivity.
  - exact Hpre.
  - apply Forall_reverse. exact Hpost.
Qed.

(** [only_digits] keeps the digits, in order, and nothing else. *)
Lemma only_digits_all (s : list N) :
  Forall (fun c => isdecimal c = true) (only_digits s).
Proof.
  unfold only_digits. apply Forall_forall. intros c Hc.
  apply list_elem_of_filter in Hc. apply Hc.
Qed.

Lemma only_digits_sublist (s : list N) : only_digits s `sublist_of` s.
Proof. apply sublist_filter. Qed.

Lemma only_digits_fixed (s : list N) :
  Forall (fun c => isdecimal c = true) s → only_digits s = s.
Proof.
  unfold only_digits. induction 1 as [|c s Hc Hs IH]; [reflexivity|].
  rewrite filter_cons_True by exact Hc. f_equal. exact IH.
Qed.

(** [search_digits] finds the first run of digits: nothing but
    non-digits before it, digits in it, and no digit right after it. *)
Lemma search_digits_Some (s d : list N) :
  search_digits s = Some d →
  d ≠ [] ∧ Forall (fun c => isdecimal c = true) d ∧
  ∃ pre post, s = pre ++ d ++ post ∧
              Forall (fun c => isdecimal c = false) pre ∧
              (∀ c, head post = Some c → isdecimal c = false).
Proof.
  unfold search_digits.
  destruct (drop_while_split (fun c => negb (isdecimal c)) s) as (pre & Hs & Hpre).
  destruct (drop_while (fun c => negb (isdecimal c)) s) as [|c r] eqn:Hr; [discriminate|].
  intros [= <-].
  assert (Hc : isdecimal c = true).
  { apply negb_false_iff.
    apply (head_drop_while (fun c => negb (isdecimal c)) s c). rewrite Hr. reflexivity. }
  destruct (take_while_split isdecimal (c :: r)) as [Hsplit Hall].
  split; [simpl; rewrite Hc; discriminate|]. split; [exact Hall|].
  exists pre, (drop_while isdecimal (c :: r)). split; [|split].
  - rewrite Hs at 1. f_equal. exact Hsplit.
  - eapply Forall_impl; [exact Hpre|]. intros x Hx. apply negb_true_iff. exact Hx.
  - intros x Hx. apply (head_drop_while _ _ _ Hx).
Qed.

Lemma search_digits_None (s : list N) :
  search_digits s = None → Forall (fun c => isdecimal c = false) s.
Proof.
  unfold search_digits.
  destruct (drop_while_split (fun c => negb (isdecimal c)) s) as (pre & Hs & Hpre).
  destruct (drop_while (fun c => negb (isdecimal c)) s); [|discriminate].
  intros _. rewrite Hs, app_nil_r.
  eapply Forall_impl; [exact Hpre|]. intros x Hx. apply negb_true_iff. exact Hx.
Qed.

(** [int] of a non-empty run of digits is its value. *)
Lemma py_int_digits (d : list N) : d ≠ [] → py_int d = Ok (digits_value d).
Proof. destruct d; [contradiction | reflexivity]. Qed.

Lemma py_int_empty : py_int [] = Raise ValueError.
Proof. reflexivity. Qed.
End TextFacts.

(** ** Queries: the first match in document order *)

Lemma filter_none {A} (test : A → bool) (l : list A) :
  (∀ y, y ∈ l → test y = false) → filter (fun d => test d = true) l = [].
Proof.
  induction l as [|y l IH]; intros Hl; [reflexivity|].
  rewrite filter_cons_False by (rewrite (Hl y) by constructor; discriminate).
  apply IH. intros z Hz. apply Hl. constructor. exact Hz.
Qed.

Lemma find_first (test : node → bool) (n : node) before x after :
  descendants n = before ++ x :: after →
  (∀ y, y ∈ before → test y = false) → test x = true →
  find test n = Some x.
Proof.
  intros Hd Hbefore Hx. unfold find, find_all.
  rewrite Hd, filter_app, (filter_none test before Hbefore).
  rewrite filter_cons_True by exact Hx. reflexivity.
Qed.

Lemma find_nothing (test : node → bool) (n : node) :
  (∀ y, y ∈ descendants n → test y = false) → find test n = None.
Proof. intros Hn. unfold find, find_all. rewrite filter_none by exact Hn. reflexivity. Qed.

Lemma find_Some (test : node → bool) (n x : node) :
  find test n = Some x →
  ∃ before after, descendants n = before ++ x :: after ∧
                  (∀ y, y ∈ before → test y = false) ∧ test x = true.
Proof.
  unfold find, find_all. generalize (descendants n) as l.
  induction l as [|y l IH]; [discriminate|].
  destruct (test y) eqn:E.
  - rewrite filter_cons_True by exact E. intros [= ->].
    exists [], l. split; [reflexivity|]. split; [|exact E].
    intros z Hz. inversion Hz.
  - rewrite filter_cons_False by (rewrite E; discriminate). intros Hx.
    destruct (IH Hx) as (before & after & -> & Hb & Ht).
    exists (y :: before), after. split; [reflexivity|]. split; [|exact Ht].
    intros z Hz. apply elem_of_cons in Hz as [->|Hz]; [exact E | apply Hb, Hz].
Qed.

(** C4 (the claim as stated fails): the block of the key is there and its
    last paragraph reads " Audi ", yet the lookup yields nothing, because
    the block has a single paragraph. *)
Lemma C4_counterexample :
  find (fun n => named (py "div") n && attr_is data_testid (py "make") n) one_paragraph_page
  = Some (tag_id "div" "make" [tag "p" [str " Audi "]]) ∧
  @extract_data_testid_value sample one_paragraph_page (py "make") = None.
Proof. vm_compute. repeat split. Qed.

(** C4 (amended): the lookup takes the first block, in document order,
    whose [data-testid] equals the key.  When that block holds at least
    two paragraphs the result is the trimmed text of the last of them;
    when there is no such block, or the block holds fewer than two
    paragraphs, the result is absent.  A result neither begins nor ends
    with a space. *)
Theorem C4_keyed_lookup :
  ∀ (P : Platform) (soup : node) (key : list N),
    let is_block := fun n => named (py "div") n && attr_is data_testid key n in
    ((∀ n, n ∈ descendants soup → is_block n = false) →
     extract_data_testid_value soup key = None) ∧
    (∀ before block after,
       descendants soup = before ++ block :: after →
       (∀ n, n ∈ before → is_block n = false) → is_block block = true →
       (∀ ps p_last,
          find_all (named (py "p")) block = ps ++ [p_last] → (1 ≤ length ps)%nat →
          extract_data_testid_value soup key = Some (strip (text p_last))) ∧
       ((length (find_all (named (py "p")) block) < 2)%nat →
        extract_data_testid_value soup key = None)) ∧
    (∀ v, extract_data_testid_value soup key = Some v →
       (∀ c, head v = Some c → isspace c = false) ∧
       (∀ c, last v = Some c → isspace c = false)).
Proof.
  intros P soup key is_block. unfold is_block. clear is_block. split; [|split].
  - intros Hnone. unfold extract_data_testid_value.
    rewrite (find_nothing _ soup Hnone). reflexivity.
  - intros before block after Hd Hbefore Hblock.
    pose proof (find_first _ soup before block after Hd Hbefore Hblock) as Hfind.
    unfold extract_data_testid_value. rewrite Hfind. split.
    + intros ps p_last Hps Hlen. rewrite Hps, last_snoc.
      rewrite bool_decide_eq_true_2 by (rewrite length_app; simpl; lia).
      reflexivity.
    + intros Hlen. rewrite bool_decide_eq_false_2 by lia. reflexivity.
  - intros v Hv. unfold extract_data_testid_value in Hv.
    destruct (find _ soup) as [block|]; [|discriminate].
    destruct (bool_decide _); [|discriminate].
    destruct (last _) as [p|]; [|discriminate].
    injection Hv as <-. apply strip_trimmed.
Qed.

Lemma C4_witness :
  @extract_data_testid_value sample two_paragraph_page (py "make") = Some (py "Audi").
Proof.
  apply (proj1 (proj1 (proj2 (C4_keyed_lookup sample two_paragraph_page (py "make")))
           [tag "div" [tag "p" [str "Szczegoly"]]; tag "p" [str "Szczegoly"]; str "Szczegoly"]
           (tag_id "div" "make" [tag "p" [str "Marka pojazdu"]; tag "p" [str " Audi "]])
           [tag "p" [str "Marka pojazdu"]; str "Marka pojazdu"; tag "p" [str " Audi "];
            str " Audi ";
            tag_id "div" "make" [tag "p" [str "Marka pojazdu"]; tag "p" [str "BMW"]];
            tag "p" [str "Marka pojazdu"]; str "Marka pojazdu"; tag "p" [str "BMW"];
            str "BMW"]
           eq_refl
           ltac:(intros n Hn; repeat (apply elem_of_cons in Hn as [->|Hn]; [reflexivity|]);
                 inversion Hn)
           eq_refl)
         [tag "p" [str "Marka pojazdu"]] (tag "p" [str " Audi "]) eq_refl).
  simpl. lia.
Defined.

(** ** The builder, step by step *)

Section BuilderFacts.
Context `{Platform}.

Lemma search_4digits_Some (s d : list N) :
  search_4digits s = Some d →
  length d = 4%nat ∧ Forall (fun c => isdecimal c = true) d ∧
  ∃ pre post, s = pre ++ d ++ post.
Proof.
  revert d. induction s as [|c s IH]; intros d; [discriminate|].
  cbn [search_4digits].
  destruct (forallb isdecimal (take 4 (c :: s)) &&
            bool_decide (length (take 4 (c :: s)) = 4%nat)) eqn:E.
  - intros [= <-]. apply andb_true_iff in E as [Hall Hlen].
    apply bool_decide_eq_true in Hlen. split; [exact Hlen|]. split.
    + apply Forall_forall. intros x Hx.
      rewrite forallb_forall in Hall. apply Hall, list_elem_of_In, Hx.
    + exists [], (drop 4 (c :: s)). exact (eq_sym (take_drop 4 (c :: s))).
  - intros Hd. destruct (IH d Hd) as (Hlen & Hall & pre & post & ->).
    split; [exact Hlen|]. split; [exact Hall|].
    exists (c :: pre), post. reflexivity.
Qed.

(** The run found is the leftmost, and a text without a run has no four
    digits in a row anywhere. *)
Lemma four_digits_here (s d post : list N) :
  s = d ++ post → length d = 4%nat → Forall (fun c => isdecimal c = true) d →
  forallb isdecimal (take 4 s) && bool_decide (length (take 4 s) = 4%nat) = true.
Proof.
  intros -> Hlen Hall.
  assert (Htake : take 4 (d ++ post) = d).
  { rewrite <- Hlen. apply take_app_length. }
  rewrite Htake. apply andb_true_iff. split.
  - apply forallb_forall. intros x Hx. rewrite Forall_forall in Hall.
    apply Hall, list_elem_of_In, Hx.
  - apply bool_decide_eq_true. exact Hlen.
Qed.

Lemma search_4digits_leftmost (s d : list N) :
  search_4digits s = Some d →
  ∃ pre post, s = pre ++ d ++ post ∧
    ∀ pre' d' post', s = pre' ++ d' ++ post' → length d' = 4%nat →
      Forall (fun c => isdecimal c = true) d' → (length pre ≤ length pre')%nat.
Proof.
  revert d. induction s as [|c s IH]; intros d; [discriminate|].
  cbn [search_4digits].
  destruct (forallb isdecimal (take 4 (c :: s)) &&
            bool_decide (length (take 4 (c :: s)) = 4%nat)) eqn:E.
  - intros [= <-]. exists [], (drop 4 (c :: s)).
    split; [exact (eq_sym (take_drop 4 (c :: s)))|]. intros; simpl; lia.
  - intros Hd. destruct (IH d Hd) as (pre & post & -> & Hleft).
    exists (c :: pre), post. split; [reflexivity|].
    intros pre' d' post' Hsplit Hlen Hall. destruct pre' as [|c' pre'].
    + simpl in Hsplit. rewrite (four_digits_here _ d' post' Hsplit Hlen Hall) in E.
      discriminate.
    + simpl in Hsplit. injection Hsplit as <- Hs. simpl.
      pose proof (Hleft pre' d' post' Hs Hlen Hall). lia.
Qed.

Lemma search_4digits_None (s : list N) :
  search_4digits s = None →
  ∀ pre d post, s = pre ++ d ++ post → length d = 4%nat →
    ¬ Forall (fun c => isdecimal c = true) d.
Proof.
  induction s as [|c s IH]; intros Hnone pre d post Hsplit Hlen Hall.
  - destruct pre; [destruct d; [discriminate Hlen | discriminate Hsplit] | discriminate Hsplit].
  - cbn [search_4digits] in Hnone.
    destruct (forallb isdecimal (take 4 (c :: s)) &&
              bool_decide (length (take 4 (c :: s)) = 4%nat)) eqn:E; [discriminate|].
    destruct pre as [|c' pre].
    + simpl in Hsplit. rewrite (four_digits_here _ d post Hsplit Hlen Hall) in E.
      discriminate.
    + simpl in Hsplit. injection Hsplit as <- Hs.
      exact (IH Hnone pre d post Hs Hlen Hall).
Qed.
Lemma parse_power_eq (text : option (list N)) :
  parse_power text = Ok (first_number text).
Proof.
  unfold parse_power, first_number. destruct (truthy text); [|reflexivity].
  destruct (search_digits _) as [d|] eqn:E; [|reflexivity].
  apply search_digits_Some in E as [Hd _].
  rewrite py_int_digits by exact Hd. reflexivity.
Qed.

Lemma parse_year_eq (text : option (list N)) :
  parse_year text =
  Ok (if truthy text
      then match search_4digits (default [] text) with
           | Some d => digits_value d
           | None => 0
           end
      else 0).
Proof.
  unfold parse_year. destruct (truthy text); [|reflexivity].
  destruct (search_4digits _) as [d|] eqn:E; [|reflexivity].
  apply search_4digits_Some in E as [Hd _].
  apply py_int_digits. destruct d; [discriminate Hd | discriminate].
Qed.

Lemma power_fallback_eq (engine_power : option Z) (moc : option (list N)) :
  power_fallback engine_power moc =
  Ok (if bool_decide (engine_power = None ∨ engine_power = Some 0)
      then match first_number moc with
           | Some q => Some q
           | None => engine_power
           end
      else engine_power).
Proof.
  unfold power_fallback, first_number.
  destruct (bool_decide _); [|reflexivity]. simpl.
  destruct (truthy moc); [|reflexivity].
  destruct (search_digits _) as [d|] eqn:E; [|reflexivity].
  apply search_digits_Some in E as [Hd _].
  rewrite py_int_digits by exact Hd. reflexivity.
Qed.


(** The VIN attempts never raise. *)
Lemma vin_loop_returns browser max_retries attempts :
  ∃ v, outcome (vin_loop browser max_retries attempts) = Ok v.
Proof.
  induction attempts as [|attempt rest [v Hv]]; simpl; [eexists; reflexivity|].
  rewrite outcome_bind, outcome_try_except, outcome_bind.
  destruct (outcome (vin_attempt (browser attempt))) as [r|e]; simpl.
  - eexists; reflexivity.
  - destruct (Z.of_nat attempt <? max_retries); simpl; [exact (ex_intro _ v Hv)|].
    eexists; reflexivity.
Qed.

Lemma extract_vin_returns browser :
  ∃ v, outcome (extract_vin_with_playwright browser) = Ok v.
Proof. exact (vin_loop_returns browser 2 (range (2 + 1))). Qed.

(** The static fallbacks: the first success of the chain, and what the
    keyed lookup gave when there is none. *)
Lemma static_vin_eq (soup : node) (details : gmap (list N) (list N))
    (interactive : option (list N)) :
  static_vin soup details interactive =
  match first_success [interactive; advert_vin soup;
                       extract_data_testid_value soup (py "vin");
                       details !! py "vin"] with
  | Some v => Some v
  | None => extract_data_testid_value soup (py "vin")
  end.
Proof.
  unfold static_vin.
  assert (Hadvert :
    match find (fun n => named (py "div") n &&
                         attr_is data_testid (py "advert-vin") n) soup with
    | Some vin_div =>
        match find (named (py "p")) vin_div with
        | Some vin_p => Some (strip (text vin_p))
        | None => interactive
        end
    | None => interactive
    end = match advert_vin soup with Some a => Some a | None => interactive end).
  { unfold advert_vin. destruct (find _ soup) as [vin_div|]; [|reflexivity].
    destruct (find _ vin_div); reflexivity. }
  rewrite Hadvert. clear Hadvert.
  generalize (advert_vin soup) as advert.
  generalize (extract_data_testid_value soup (py "vin")) as keyed.
  generalize (details !! py "vin") as legacy.
  intros legacy keyed advert.
  destruct interactive as [[|? ?]|], advert as [[|? ?]|], keyed as [[|? ?]|],
           legacy as [[|? ?]|]; reflexivity.
Qed.

Lemma first_success_truthy (candidates : list (option (list N))) (v : list N) :
  first_success candidates = Some v → v ≠ [] ∧ Some v ∈ candidates.
Proof.
  induction candidates as [|c rest IH]; [discriminate|]. simpl.
  destruct (truthy c) eqn:E.
  - intros ->. split; [destruct v; [discriminate E | discriminate] | constructor].
  - intros Hv. destruct (IH Hv) as [Hne Hin]. split; [exact Hne | constructor; exact Hin].
Qed.
Lemma build_car_inv (w : link_world) (url : list N) (car : Car) :
  outcome (build_car w url) = Ok car →
  ∃ html price power0 year' power vin' indicator range,
    outcome (fetch_html_default (server w)) = Ok html ∧
    let soup := html_parser html in
    let details := legacy_details soup in
    let labels := foldl detail_label_step (None, None, None) (detail_labels soup) in
    parse_price (find_price_tag soup) = Ok price ∧
    parse_power (extract_data_testid_value soup (py "engine_power")) = Ok power0 ∧
    parse_year (py_or (details !! py "rok produkcji")
                      (extract_data_testid_value soup (py "year"))) = Ok year' ∧
    power_fallback power0 (details !! py "moc") = Ok power ∧
    outcome (extract_vin_with_playwright (browser w)) = Ok vin' ∧
    price_indicator_of soup = Ok (indicator, range) ∧
    car = new_Car url
            (match find (named (py "h1")) soup with
             | Some h1 => strip (text h1)
             | None => unknown
             end)
            (match find (fun n => named (py "div") n &&
                           attr_is data_testid (py "content-description-section") n) soup with
             | Some desc_section =>
                 join newline (get_text_strip <$> find_all (named (py "p")) desc_section)
             | None => py ""
             end)
            year' (or_none labels.1.2) (or_none labels.2) (or_none labels.1.1) price
            (extract_data_testid_value soup (py "make"))
            (extract_data_testid_value soup (py "model"))
            (py_or (extract_data_testid_value soup (py "door_count")) (details !! py "liczba drzwi"))
            (static_vin soup details vin')
            (py_or (extract_data_testid_value soup (py "body_type")) (details !! py "nadwozie"))
            (py_or (extract_data_testid_value soup (py "color")) (details !! py "kolor"))
            (py_or (extract_data_testid_value soup (py "gearbox")) (details !! skrzynia_biegow))
            power
            (py_or (extract_data_testid_value soup (py "first_registration"))
                   (details !! py "pierwsza rejestracja"))
            (py_or (extract_data_testid_value soup (py "transmission")) (details !! naped))
            indicator range
            (extract_data_testid_value soup (py "no_accident"))
            (extract_data_testid_value soup (py "country_origin"))
            (extract_data_testid_value soup (py "new_used"))
            (extract_data_testid_value soup (py "date_registration")).
Proof.
  unfold build_car. intros Hcar.
  rewrite outcome_bind in Hcar.
  destruct (outcome (fetch_html_default (server w))) as [html|] eqn:Hhtml; [|discriminate].
  rewrite outcome_bind, outcome_lift in Hcar.
  destruct (parse_price _) as [price|] eqn:Hprice; [|discriminate].
  rewrite outcome_bind, outcome_lift in Hcar.
  destruct (parse_power _) as [power0|] eqn:Hpower0; [|discriminate].
  destruct (foldl detail_label_step _ _) as [[fuel mileage] capacity] eqn:Hlabels.
  rewrite outcome_bind, outcome_lift in Hcar.
  destruct (parse_year _) as [year'|] eqn:Hyear; [|discriminate].
  rewrite outcome_bind, outcome_lift in Hcar.
  destruct (power_fallback _ _) as [power|] eqn:Hpower; [|discriminate].
  rewrite outcome_bind in Hcar.
  destruct (outcome (extract_vin_with_playwright _)) as [vin'|] eqn:Hvin; [|discriminate].
  rewrite outcome_bind, outcome_lift in Hcar.
  destruct (price_indicator_of _) as [[indicator range]|] eqn:Hind; [|discriminate].
  simpl in Hcar. injection Hcar as <-.
  exists html, price, power0, year', power, vin', indicator, range.
  cbv zeta. rewrite Hlabels.
  repeat (split; [first [assumption | reflexivity]|]). reflexivity.
Qed.
End BuilderFacts.



Section Fields.
Context `{Platform}.

Lemma fetch_car_details_Some (w : link_world) (url : list N) (car : Car) :
  outcome (fetch_car_details w url) = Ok (Some car) ↔ outcome (build_car w url) = Ok car.
Proof.
  rewrite fetch_car_details_outcome.
  destruct (outcome (build_car w url)); split; congruence.
Qed.

End Fields.


(** A price tag without a digit makes [int('')] raise [ValueError] at
    line 148, outside the [try] of lines 236-252: the record is dropped. *)
Example unparseable_price_drops_record :
  outcome (@build_car sample (world_of ask_html no_browser) sample_url) = Raise ValueError ∧
  outcome (@fetch_car_details sample (world_of ask_html no_browser) sample_url) = Ok None.
Proof. vm_compute. repeat split. Qed.



(** C6: the VIN of a record is the first success of the chain
    (1) the interactive extractor, (2) the first paragraph of the static
    "advert-vin" block, (3) the keyed lookup of "vin", (4) the "vin" entry
    of the legacy table, a success being a text that is not empty.  In
    particular the value of the interactive extractor is used whatever
    the static places hold.  When no step succeeds the record holds
    "unknown" or an empty text. *)
Theorem C6_vin_precedence :
  ∀ (P : Platform) (w : link_world) (url html : list N)
    (interactive : option (list N)) (car : Car),
    outcome (fetch_html_default (server w)) = Ok html →
    outcome (extract_vin_with_playwright (browser w)) = Ok interactive →
    outcome (fetch_car_details w url) = Ok (Some car) →
    let soup := html_parser html in
    let chain := [interactive; advert_vin soup;
                  extract_data_testid_value soup (py "vin");
                  legacy_details soup !! py "vin"] in
    (∀ v, first_success chain = Some v → vin car = Some v) ∧
    (∀ v, interactive = Some v → v ≠ [] → vin car = Some v) ∧
    (first_success chain = None → vin car = Some unknown ∨ vin car = Some []).
Proof.
  intros P w url html interactive car Hhtml Hvin Hcar soup chain.
  apply fetch_car_details_Some in Hcar.
  destruct (build_car_inv w url car Hcar)
    as (html' & price & power0 & y & pw & v' & ind & rng & Hhtml' & Hinv).
  rewrite Hhtml in Hhtml'. injection Hhtml' as <-.
  cbv zeta in Hinv. fold soup in Hinv.
  destruct Hinv as (_ & _ & _ & _ & Hvin' & _ & ->).
  rewrite Hvin in Hvin'. injection Hvin' as <-.
  cbn [vin new_Car post_init]. rewrite static_vin_eq. fold chain.
  assert (Hfirst : ∀ v, first_success chain = Some v →
                        if_none (match first_success chain with
                                 | Some v => Some v
                                 | None => extract_data_testid_value soup (py "vin")
                                 end) unknown = Some v).
  { intros v ->. reflexivity. }
  split; [exact Hfirst|]. split.
  - intros v -> Hv. apply Hfirst. unfold chain. simpl.
    destruct v; [contradiction | reflexivity].
  - intros Hnone. rewrite Hnone. unfold chain in Hnone. simpl in Hnone.
    destruct interactive as [[|? ?]|]; simpl in Hnone; try discriminate;
      destruct (advert_vin soup) as [[|? ?]|]; simpl in Hnone; try discriminate;
      destruct (extract_data_testid_value soup (py "vin")) as [[|? ?]|];
      simpl in Hnone; try discriminate;
      first [right; reflexivity | left; reflexivity].
Qed.

Lemma C6_witness :
  @advert_vin sample vin_page = Some (py "WAUZZZ8K9DA000001") ∧
  vin vin_car = Some (py "WAUZZZ8K9DA123456").
Proof.
  split; [vm_compute; reflexivity|].
  apply (proj1 (proj2 (C6_vin_precedence sample
                         (world_of vin_html (vin_shown (py " WAUZZZ8K9DA123456 ")))
                         sample_url vin_html (Some (py "WAUZZZ8K9DA123456")) vin_car
                         ltac:(vm_compute; reflexivity) ltac:(vm_compute; reflexivity)
                         ltac:(vm_compute; reflexivity)))).
  - reflexivity.
  - discriminate.
Defined.

(** ** The Schema Transformer *)



(** The transformer on the two sample cars. *)
Example transform_tak_car :
  let param := fun key =>
    get_item (py "params") (@transform_car_to_schema sample tak_car) ≫= get_item key in
  param (py "make") = Some (VStr (py "audi")) ∧
  param (py "fuel_type") = Some (VStr (py "diesel")) ∧
  param (py "mileage") = Some (VStr (py "150000")) ∧
  param (py "engine_capacity") = Some (VStr (py "19683")) ∧
  param (py "no_accident") = Some (VInt 1) ∧
  param (py "country_origin") = Some (VStr (py "unknown")).
Proof. vm_compute. repeat split. Qed.

Example transform_nie_car :
  let out := @transform_car_to_schema sample nie_car in
  let param := fun key => get_item (py "params") out ≫= get_item key in
  param (py "make") = Some (VStr (py "")) ∧
  param (py "mileage") = Some (VStr (py "")) ∧
  param (py "no_accident") = Some (VInt 0) ∧
  param (py "country_origin") = Some (VStr (py "pl")) ∧
  get_item (py "new_used") out = Some (VStr (py "used")).
Proof. vm_compute. repeat split. Qed.

(** ** Browser sessions *)





(** A property of traces that holds of the empty trace and is kept by
    concatenation holds along a sequence of steps when it holds along
    each of them. *)
Section Closed.
Context (Q : list event → Prop).
Context (Q_app : ∀ t1 t2, Q t1 → Q t2 → Q (t1 ++ t2)).


End Closed.

Section Sessions.
Context `{Platform}.

(** Inside the [async with] block only the browser is launched and
    closed. *)
Lemma vin_session_events (b : browser_run) :
  Forall browser_event (trace (vin_session b)).
Proof.
  unfold vin_session, read_revealed, dismiss_consent, browser_close, strip_content.
  trace_steps @Forall_trace_bind @Forall_trace_try_except.
Qed.

(** One attempt: no session when Playwright cannot be started; else a
    session that is entered and left, whatever happens inside. *)
Lemma vin_attempt_trace (b : browser_run) :
  (∃ e, pw_start b = Raise e ∧ vin_attempt b = ([], Raise e)) ∨
  (pw_start b = Ok tt ∧
   trace (vin_attempt b) = PlaywrightEnter :: trace (vin_session b) ++ [PlaywrightExit] ∧
   outcome (vin_attempt b) = outcome (vin_session b)).
Proof.
  unfold vin_attempt, finally.
  destruct (pw_start b) as [[]|e]; [right | left; exists e; split; reflexivity].
  split; [reflexivity|]. destruct (vin_session b) as [t r]. split; reflexivity.
Qed.



Lemma fetch_html_loop_outside server retries delay attempts :
  Forall outside_event (trace (fetch_html_loop server retries delay attempts)).
Proof.
  induction attempts as [|attempt rest IH]; [constructor|].
  cbn [fetch_html_loop]. apply Forall_trace_bind.
  - rewrite fetch_html_attempt_eq. unfold failed_attempt, wait_after.
    destruct (success _); [repeat constructor|].
    destruct (server attempt) as [status body|e];
      repeat match goal with |- context [if ?c then _ else _] => destruct c end;
      repeat constructor.
  - intros [|t]; [exact IH | constructor].
Qed.


End Sessions.


(** A timed-out navigation: three sessions, each left before the pause
    that follows it, and no VIN. *)
Example navigation_times_out :
  @extract_vin_with_playwright sample (fun _ => goto_times_out) =
  ([PlaywrightEnter; BrowserLaunch; PlaywrightExit; SleepVinRetry;
    PlaywrightEnter; BrowserLaunch; PlaywrightExit; SleepVinRetry;
    PlaywrightEnter; BrowserLaunch; PlaywrightExit], Ok None).
Proof. vm_compute. reflexivity. Qed.

Example vin_on_the_page :
  @extract_vin_with_playwright sample (fun _ => vin_shown (py " WAUZZZ8K9DA123456 ")) =
  ([PlaywrightEnter; BrowserLaunch; BrowserClose; PlaywrightExit],
   Ok (Some (py "WAUZZZ8K9DA123456"))).
Proof. vm_compute. reflexivity. Qed.

(** Neither the VIN nor the button: one session, closed, and no VIN; the
    failed click on the cookie banner goes unnoticed. *)
Example nothing_to_reveal :
  @extract_vin_with_playwright sample (fun _ => no_vin_button) =
  ([PlaywrightEnter; BrowserLaunch; BrowserClose; PlaywrightExit], Ok None).
Proof. vm_compute. reflexivity. Qed.

Example vin_after_the_click :
  @extract_vin_with_playwright sample (fun _ => vin_revealed (py "WAUZZZ8K9DA123456 ")) =
  ([PlaywrightEnter; BrowserLaunch; BrowserClose; PlaywrightExit],
   Ok (Some (py "WAUZZZ8K9DA123456"))).
Proof. vm_compute. reflexivity. Qed.

(** * Further properties *)

(** ** [extract_links_from_page] *)

Lemma descendants_app name cls attrs (cs1 cs2 : list node) :
  descendants (NTag name cls attrs (cs1 ++ cs2)) =
  descendants (NTag name cls attrs cs1) ++ descendants (NTag name cls attrs cs2).
Proof. simpl. apply flat_map_app. Qed.

Lemma find_all_app test name cls attrs (cs1 cs2 : list node) :
  find_all test (NTag name cls attrs (cs1 ++ cs2)) =
  find_all test (NTag name cls attrs cs1) ++ find_all test (NTag name cls attrs cs2).
Proof. unfold find_all. rewrite descendants_app. apply filter_app. Qed.

Lemma find_Some_elem (test : node → bool) (n x : node) :
  find test n = Some x → x ∈ descendants n ∧ test x = true.
Proof.
  intros Hx. destruct (find_Some test n x Hx) as (before & after & Hd & _ & Ht).
  split; [|exact Ht]. rewrite Hd. apply elem_of_app. right. constructor.
Qed.

Lemma elem_of_find_all (test : node → bool) (n x : node) :
  x ∈ find_all test n ↔ test x = true ∧ x ∈ descendants n.
Proof. unfold find_all. rewrite list_elem_of_filter. reflexivity. Qed.

Section LinkFacts.
Context `{Platform}.

Lemma link_of_article_length (article : node) :
  (length (link_of_article article) ≤ 1)%nat.
Proof.
  unfold link_of_article. destruct (find _ article); simpl; [|lia].
  destruct (contains _ _); simpl; lia.
Qed.

Lemma flat_map_length_le {A B} (f : A → list B) (l : list A) :
  (∀ x, length (f x) ≤ 1)%nat → (length (flat_map f l) ≤ length l)%nat.
Proof.
  intros Hf. induction l as [|x l IH]; simpl; [lia|].
  rewrite length_app. specialize (Hf x). lia.
Qed.
Lemma extracted_link_shape (soup : node) (url : list N) :
  url ∈ extract_links_from_page soup →
  startswith (py "http") url = true ∧
  contains (py "/oferta/") url = true ∧
  ∃ article a_tag href,
    article ∈ descendants soup ∧ named (py "article") article = true ∧
    find (fun n => named (py "a") n && has_attr (py "href") n) article = Some a_tag ∧
    tag_get (py "href") a_tag = Some href ∧
    url = if startswith (py "http") (strip href) then strip href
          else site_origin ++ strip href.
Proof.
  intros Hin. unfold extract_links_from_page in Hin.
  apply list_elem_of_In, in_flat_map in Hin as (article & Harticle & Hin).
  apply list_elem_of_In, elem_of_find_all in Harticle as [Hnamed Hdesc].
  apply list_elem_of_In in Hin. unfold link_of_article in Hin.
  destruct (find _ article) as [a_tag|] eqn:Hfind; [|inversion Hin].
  destruct (find_Some_elem _ _ _ Hfind) as [_ Htest].
  apply andb_prop in Htest as [_ Hhref]. unfold has_attr in Hhref.
  apply bool_decide_eq_true_1 in Hhref as [href Hhref].
  rewrite Hhref in Hin. change (default [] (Some href)) with href in Hin.
  cbv zeta in Hin. fold site_origin in Hin.
  set (resolved := if startswith (py "http") (strip href) then strip href
                   else site_origin ++ strip href) in *.
  destruct (contains (py "/oferta/") resolved) eqn:Hoferta; [|inversion Hin].
  apply list_elem_of_singleton in Hin. subst url.
  split; [|split; [exact Hoferta|]].
  - unfold resolved.
    destruct (startswith (py "http") (strip href)) eqn:Hhttp; [exact Hhttp|reflexivity].
  - exists article, a_tag, href. repeat split; assumption.
Qed.
End LinkFacts.

(** X1: every link that [extract_links_from_page] returns comes from the
    first anchor with an [href] of an [article] of the page: it is the
    trimmed [href] when that begins with [http], and the site origin
    followed by the trimmed [href] otherwise.  Every returned link
    begins with [http] and contains [/oferta/]. *)
Theorem links_are_adverts :
  ∀ (P : Platform) (soup : node) (url : list N),
    url ∈ extract_links_from_page soup →
    startswith (py "http") url = true ∧
    contains (py "/oferta/") url = true ∧
    ∃ article a_tag href,
      article ∈ descendants soup ∧ named (py "article") article = true ∧
      find (fun n => named (py "a") n && has_attr (py "href") n) article = Some a_tag ∧
      tag_get (py "href") a_tag = Some href ∧
      url = if startswith (py "http") (strip href) then strip href
            else site_origin ++ strip href.
Proof. intros P soup url. apply extracted_link_shape. Qed.

Lemma links_are_adverts_witness :
  startswith (py "http") audi_link = true ∧ contains (py "/oferta/") audi_link = true.
Proof.
  destruct (links_are_adverts sample listing_page audi_link) as (H1 & H2 & _).
  - vm_compute. constructor.
  - split; [exact H1|exact H2].
Defined.

(** X2: [extract_links_from_page] reads the page in document order and
    keeps what it finds: the links of a page made of two parts are the
    links of the first part followed by the links of the second, with no
    link removed or merged, and a page never gives more links than it
    has [article] tags. *)
Theorem links_in_document_order :
  ∀ (P : Platform) name cls attrs (part1 part2 : list node),
    extract_links_from_page (NTag name cls attrs (part1 ++ part2)) =
    extract_links_from_page (NTag name cls attrs part1) ++
    extract_links_from_page (NTag name cls attrs part2) ∧
    ∀ soup, (length (extract_links_from_page soup) ≤
             length (find_all (named (py "article")) soup))%nat.
Proof.
  intros P name cls attrs part1 part2. split.
  - unfold extract_links_from_page. rewrite find_all_app. apply flat_map_app.
  - intros soup. unfold extract_links_from_page.
    apply flat_map_length_le, link_of_article_length.
Qed.

(** ** The loop over the listing pages and [scrape] as a whole *)

Lemma fetch_html_default_eq (server : nat → response) :
  fetch_html_default server = (trace (fetch_html_default server), Ok (fetched server)).
Proof.
  unfold fetched. destruct (fetch_html_returns server 2 1) as (html & Hhtml & _).
  fold (fetch_html_default server) in Hhtml. rewrite Hhtml.
  destruct (fetch_html_default server) as [t r]. simpl in *. subst r. reflexivity.
Qed.


Section ListingFacts.
Context `{Platform}.

Lemma collect_links_eq pages all_links page_numbers :
  collect_links pages all_links page_numbers =
  (flat_map (page_events pages) page_numbers,
   Ok (all_links ++ flat_map (page_links pages) page_numbers)).
Proof.
  revert all_links. induction page_numbers as [|page rest IH]; intros all_links.
  - simpl. rewrite app_nil_r. reflexivity.
  - cbn [collect_links flat_map]. rewrite (fetch_html_default_eq (pages page)).
    unfold bind at 2. rewrite IH. unfold page_events at 2.
    simpl. rewrite <- app_assoc. reflexivity.
Qed.

Lemma scrape_eq max_pages pages worlds :
  scrape max_pages pages worlds =
  (flat_map (page_events pages) (seq 1 (Z.to_nat max_pages)) ++
   flat_map (chunk_events worlds (listed_links max_pages pages))
            (range_step (length (listed_links max_pages pages)) chunk_size),
   Ok (omap id (imap (fun k url => record_of (fetch_car_details (worlds k) url))
                     (listed_links max_pages pages)))).
Proof.
  unfold scrape. rewrite collect_links_eq. unfold bind. simpl app at 1.
  fold (listed_links max_pages pages). rewrite process_links_eq. reflexivity.
Qed.
End ListingFacts.





(** ** [fetch_html]: the requests made and the time spent waiting *)

Lemma total_wait_app (t1 t2 : list event) :
  total_wait (t1 ++ t2) = total_wait t1 + total_wait t2.
Proof. unfold total_wait. induction t1 as [|e t1 IH]; simpl; [reflexivity|]. lia. Qed.

Lemma requests_app (t1 t2 : list event) :
  requests (t1 ++ t2) = requests t1 ++ requests t2.
Proof. apply omap_app. Qed.

Lemma wait_after_requests server retries delay attempt :
  requests (wait_after server retries delay attempt) = [].
Proof.
  unfold wait_after. destruct (server attempt) as [status body|e].
  - destruct (status =? 403); [reflexivity|].
    destruct (Z.of_nat attempt <? retries - 1); reflexivity.
  - destruct (Z.of_nat attempt <? retries - 1); reflexivity.
Qed.

Lemma wait_after_bound server retries delay attempt :
  total_wait (wait_after server retries delay attempt) ≤ Z.max 5000 (1000 * delay) ∧
  (0 ≤ delay → 0 ≤ total_wait (wait_after server retries delay attempt)).
Proof.
  unfold wait_after. destruct (server attempt) as [status body|e].
  - destruct (status =? 403); [simpl; lia|].
    destruct (Z.of_nat attempt <? retries - 1); simpl; lia.
  - destruct (Z.of_nat attempt <? retries - 1); simpl; lia.
Qed.

Lemma fetch_html_loop_requests server retries delay attempts :
  ∃ made skipped,
    attempts = made ++ skipped ∧
    requests (trace (fetch_html_loop server retries delay attempts)) = made ∧
    total_wait (trace (fetch_html_loop server retries delay attempts))
      ≤ Z.of_nat (length made) * Z.max 5000 (1000 * delay) ∧
    (0 ≤ delay → 0 ≤ total_wait (trace (fetch_html_loop server retries delay attempts))).
Proof.
  induction attempts as [|attempt rest IH].
  - exists [], []. simpl. repeat split; lia.
  - cbn [fetch_html_loop]. rewrite fetch_html_attempt_eq.
    destruct (success (server attempt)) as [body|].
    + exists [attempt], rest. simpl. repeat split; lia.
    + destruct IH as (made & skipped & Hsplit & Hreq & Hwait & Hpos).
      exists (attempt :: made), skipped.
      destruct (fetch_html_loop server retries delay rest) as [t r].
      cbn [trace fst] in *. unfold bind, failed_attempt.
      cbn [fst app]. change (Request attempt :: ?l) with ([Request attempt] ++ l).
      cbn [trace fst]. rewrite !requests_app, !total_wait_app, wait_after_requests.
      destruct (wait_after_bound server retries delay attempt) as [Hw Hw0].
      split; [rewrite Hsplit; reflexivity|].
      split; [rewrite Hreq; reflexivity|].
      change (total_wait [Request attempt]) with 0.
      split; [|intros Hd; specialize (Hw0 Hd); specialize (Hpos Hd); lia].
      cbn [length]. lia.
Qed.

Lemma fetch_html_cost (server : nat → response) (retries delay : Z) :
  (∃ n, (n ≤ Z.to_nat retries)%nat ∧
        requests (trace (fetch_html server retries delay)) = seq 0 n ∧
        total_wait (trace (fetch_html server retries delay))
          ≤ Z.of_nat n * Z.max 5000 (1000 * delay)) ∧
  (0 ≤ delay → 0 ≤ total_wait (trace (fetch_html server retries delay))).
Proof.
  unfold fetch_html, range.
  destruct (fetch_html_loop_requests server retries delay (seq 0 (Z.to_nat retries)))
    as (made & skipped & Hsplit & Hreq & Hwait & Hpos).
  split; [|exact Hpos]. exists (length made).
  assert (Hlen : (length made ≤ Z.to_nat retries)%nat).
  { apply (f_equal length) in Hsplit. rewrite length_seq, length_app in Hsplit. lia. }
  split; [exact Hlen|]. split; [|exact Hwait].
  rewrite Hreq. apply (f_equal (take (length made))) in Hsplit.
  rewrite take_app_length, take_seq in Hsplit.
  rewrite Nat.min_l in Hsplit by exact Hlen. symmetry. exact Hsplit.
Qed.

Lemma fetch_html_default_cost (server : nat → response) :
  (length (requests (trace (fetch_html_default server))) ≤ 2)%nat ∧
  0 ≤ total_wait (trace (fetch_html_default server)) ≤ 10000 ∧
  count_events is_enter (trace (fetch_html_default server)) = 0%nat.
Proof.
  destruct (fetch_html_cost server 2 1) as [(n & Hle & Hreq & Hwait) Hpos].
  fold (fetch_html_default server) in Hreq, Hwait, Hpos.
  rewrite Hreq, length_seq. split; [exact Hle|].
  change (Z.to_nat 2) with 2%nat in Hle.
  split; [split; [apply Hpos; lia|lia]|].
  unfold count_events. rewrite filter_none; [reflexivity|].
  pose proof (fetch_html_loop_outside server 2 1 (range 2)) as Hout.
  rewrite Forall_forall in Hout. intros e He. specialize (Hout e He).
  destruct e; try reflexivity. contradiction.
Qed.

(** X6: the requests and the waits of [fetch_html].  The requests of a
    call are the attempts [0, 1, ..., n - 1] for some [n] that is at most
    [retries]: no attempt is made twice or skipped.  The time spent
    waiting is at most [retries] times the longer of the two waits (five
    seconds and [delay] seconds), and it is not negative when [delay] is
    not.  In particular a call with the defaults makes at most two
    requests and waits for at most ten seconds. *)
Theorem fetch_html_requests_and_waits :
  ∀ (server : nat → response) (retries delay : Z),
    (∃ n, (n ≤ Z.to_nat retries)%nat ∧
          requests (trace (fetch_html server retries delay)) = seq 0 n ∧
          total_wait (trace (fetch_html server retries delay))
            ≤ Z.of_nat n * Z.max 5000 (1000 * delay)) ∧
    (0 ≤ delay → 0 ≤ total_wait (trace (fetch_html server retries delay))) ∧
    (length (requests (trace (fetch_html_default server))) ≤ 2)%nat ∧
    0 ≤ total_wait (trace (fetch_html_default server)) ≤ 10000.
Proof.
  intros server retries delay.
  destruct (fetch_html_cost server retries delay) as [Hn Hpos].
  destruct (fetch_html_default_cost server) as (Hreq & Hwait & _).
  split; [exact Hn|]. split; [exact Hpos|]. split; [exact Hreq|exact Hwait].
Qed.

Lemma fetch_html_requests_and_waits_witness :
  0 ≤ total_wait (trace (fetch_html (blocked_twice (py "<html></html>")) 3 1)).
Proof.
  apply (proj1 (proj2 (fetch_html_requests_and_waits
                         (blocked_twice (py "<html></html>")) 3 1))).
  lia.
Defined.

(** ** [extract_vin_with_playwright]: the retries *)

Section VinFacts.
Context `{Platform}.

(** The loop of the extractor, unrolled: three attempts at most. *)
Lemma extract_vin_eq (browser : nat → browser_run) :
  let a := fun k => vin_attempt (browser k) in
  extract_vin_with_playwright browser =
  match outcome (a 0%nat) with
  | Ok v => (trace (a 0%nat), Ok v)
  | Raise _ =>
      match outcome (a 1%nat) with
      | Ok v => (trace (a 0%nat) ++ SleepVinRetry :: trace (a 1%nat), Ok v)
      | Raise _ =>
          (trace (a 0%nat) ++ SleepVinRetry :: trace (a 1%nat) ++
             SleepVinRetry :: trace (a 2%nat),
           match outcome (a 2%nat) with
           | Ok v => Ok v
           | Raise _ => Ok None
           end)
      end
  end.
Proof.
  intros a. unfold a. clear a.
  change (extract_vin_with_playwright browser)
    with (vin_loop browser 2 [0; 1; 2]%nat).
  cbn [vin_loop].
  destruct (vin_attempt (browser 0%nat)) as [t0 [v0|e0]];
    [simpl; rewrite ?app_nil_r; reflexivity|].
  destruct (vin_attempt (browser 1%nat)) as [t1 [v1|e1]];
    [simpl; rewrite ?app_nil_r, <- ?app_assoc; reflexivity|].
  destruct (vin_attempt (browser 2%nat)) as [t2 [v2|e2]];
    simpl; rewrite ?app_nil_r, <- ?app_assoc; simpl; rewrite <- ?app_assoc; reflexivity.
Qed.

Lemma vin_session_Some (b : browser_run) (v : list N) :
  outcome (vin_session b) = Ok (Some v) →
  ∃ raw, v = strip raw ∧
         (visible_text b = Ok (Some raw) ∨ revealed_text b = Ok (Some raw)).
Proof.
  intros Hv.
  unfold vin_session, dismiss_consent, read_revealed, browser_close, strip_content,
    bind, try_except, lift, emit, ret, raise, outcome in Hv.
  destruct b; cbn [launch new_context new_page goto consent_count consent_click
    consent_wait visible_count visible_text close_visible button_count evaluate
    wait_for_selector revealed_count revealed_text close_revealed close_final] in *.
  repeat (match type of Hv with
          | context [match ?x with _ => _ end] => is_var x; destruct x
          | context [if 0 <? ?x then _ else _] => destruct (0 <? x)
          end; cbn [fst snd app] in Hv; try discriminate Hv).
  all: injection Hv as <-; eexists; split; [reflexivity|];
    first [left; reflexivity | right; reflexivity].
Qed.

Lemma vin_attempt_Some (b : browser_run) (v : list N) :
  outcome (vin_attempt b) = Ok (Some v) →
  ∃ raw, v = strip raw ∧
         (visible_text b = Ok (Some raw) ∨ revealed_text b = Ok (Some raw)).
Proof.
  intros Hv. destruct (vin_attempt_trace b) as [(e & _ & Heq)|(_ & _ & Hout)].
  - rewrite Heq in Hv. discriminate Hv.
  - rewrite Hout in Hv. apply vin_session_Some, Hv.
Qed.

Lemma count_events_app f (t1 t2 : list event) :
  count_events f (t1 ++ t2) = (count_events f t1 + count_events f t2)%nat.
Proof. unfold count_events. rewrite filter_app, length_app. reflexivity. Qed.

Lemma count_events_cons f (e : event) (t : list event) :
  count_events f (e :: t) = ((if f e then 1 else 0) + count_events f t)%nat.
Proof.
  change (e :: t) with ([e] ++ t). rewrite count_events_app. f_equal.
  unfold count_events. rewrite filter_cons, filter_nil. destruct (f e).
  - rewrite decide_True by reflexivity. reflexivity.
  - rewrite decide_False by discriminate. reflexivity.
Qed.

Lemma total_wait_cons (e : event) (t : list event) :
  total_wait (e :: t) = duration_ms e + total_wait t.
Proof. reflexivity. Qed.

Lemma count_events_none f (t : list event) :
  Forall (fun e => f e = false) t → count_events f t = 0%nat.
Proof.
  intros Hall. unfold count_events. rewrite filter_none; [reflexivity|].
  intros e He. rewrite Forall_forall in Hall. apply Hall, He.
Qed.

Lemma total_wait_none (t : list event) :
  Forall (fun e => duration_ms e = 0) t → total_wait t = 0.
Proof.
  induction 1 as [|e t He _ IH]; [reflexivity|].
  unfold total_wait in *. simpl. lia.
Qed.

Lemma vin_attempt_counts (b : browser_run) :
  (count_events is_enter (trace (vin_attempt b)) ≤ 1)%nat ∧
  count_events is_vin_pause (trace (vin_attempt b)) = 0%nat ∧
  total_wait (trace (vin_attempt b)) = 0.
Proof.
  pose proof (vin_session_events b) as Hs.
  destruct (vin_attempt_trace b) as [(e & _ & Heq)|(_ & Htr & _)].
  - rewrite Heq. split; [apply Nat.le_0_l | split; reflexivity].
  - rewrite Htr. change (PlaywrightEnter :: ?l) with ([PlaywrightEnter] ++ l).
    rewrite !count_events_app, !total_wait_app.
    rewrite (count_events_none is_enter (trace (vin_session b))),
            (count_events_none is_vin_pause (trace (vin_session b))),
            (total_wait_none (trace (vin_session b))).
    + split; [vm_compute; lia | split; reflexivity].
    + eapply Forall_impl; [exact Hs|]. intros e [-> | ->]; reflexivity.
    + eapply Forall_impl; [exact Hs|]. intros e [-> | ->]; reflexivity.
    + eapply Forall_impl; [exact Hs|]. intros e [-> | ->]; reflexivity.
Qed.
Lemma extract_vin_cost (browser : nat → browser_run) :
  (count_events is_enter (trace (extract_vin_with_playwright browser)) ≤ 3)%nat ∧
  (count_events is_vin_pause (trace (extract_vin_with_playwright browser)) ≤ 2)%nat ∧
  0 ≤ total_wait (trace (extract_vin_with_playwright browser)) ≤ 10000.
Proof.
  pose proof (extract_vin_eq browser) as Heq. cbv zeta beta in Heq.
  pose proof (vin_attempt_counts (browser 0%nat)) as (E0 & S0 & W0).
  pose proof (vin_attempt_counts (browser 1%nat)) as (E1 & S1 & W1).
  pose proof (vin_attempt_counts (browser 2%nat)) as (E2 & S2 & W2).
  rewrite Heq.
  destruct (outcome (vin_attempt (browser 0%nat)));
    [|destruct (outcome (vin_attempt (browser 1%nat)))];
    cbn [trace fst];
    rewrite ?count_events_app, ?total_wait_app, ?count_events_cons, ?total_wait_cons,
            ?count_events_app, ?total_wait_app, ?count_events_cons, ?total_wait_cons,
            ?S0, ?S1, ?S2, ?W0, ?W1, ?W2;
    cbn [is_enter is_vin_pause duration_ms];
    repeat split; lia.
Qed.
End VinFacts.

(** X7: the retries of [extract_vin_with_playwright].  The first attempt
    that ends without an exception decides the result, also when that
    result is [None] (a page without a VIN is not looked at twice); an
    attempt that raises is followed by a pause of five seconds and the
    next attempt, except the third one, after which the result is [None]
    at once.  One call starts at most three Playwright sessions, pauses
    at most twice and so waits for at most ten seconds. *)
Theorem vin_first_answer_decides :
  ∀ (P : Platform) (browser : nat → browser_run),
    let a := fun k => vin_attempt (browser k) in
    let raises := fun k => ∃ e, outcome (a k) = Raise e in
    (∀ v, outcome (a 0%nat) = Ok v →
          extract_vin_with_playwright browser = (trace (a 0%nat), Ok v)) ∧
    (∀ v, raises 0%nat → outcome (a 1%nat) = Ok v →
          extract_vin_with_playwright browser =
          (trace (a 0%nat) ++ SleepVinRetry :: trace (a 1%nat), Ok v)) ∧
    (raises 0%nat → raises 1%nat →
     extract_vin_with_playwright browser =
     (trace (a 0%nat) ++ SleepVinRetry :: trace (a 1%nat) ++
        SleepVinRetry :: trace (a 2%nat),
      match outcome (a 2%nat) with
      | Ok v => Ok v
      | Raise _ => Ok None
      end)) ∧
    (count_events is_enter (trace (extract_vin_with_playwright browser)) ≤ 3)%nat ∧
    (count_events is_vin_pause (trace (extract_vin_with_playwright browser)) ≤ 2)%nat ∧
    0 ≤ total_wait (trace (extract_vin_with_playwright browser)) ≤ 10000.
Proof.
  intros P browser a raises. subst raises a. cbv beta.
  pose proof (extract_vin_eq browser) as Heq. cbv zeta beta in Heq.
  split; [|split; [|split]].
  - intros v Hv. rewrite Heq, Hv. reflexivity.
  - intros v [e0 H0] H1. rewrite Heq, H0, H1. reflexivity.
  - intros [e0 H0] [e1 H1]. rewrite Heq, H0, H1. reflexivity.
  - exact (extract_vin_cost browser).
Qed.

Lemma vin_first_answer_decides_witness :
  @extract_vin_with_playwright sample (fun _ => no_vin_button) =
  (trace (@vin_attempt sample no_vin_button), Ok None).
Proof.
  apply (proj1 (vin_first_answer_decides sample (fun _ => no_vin_button)) None).
  reflexivity.
Defined.

(** X8: a VIN that [extract_vin_with_playwright] returns is the text of
    the VIN element of one of the three attempts, read before or after
    the click, with the white space around it removed: it neither begins
    nor ends with a space. *)
Theorem vin_is_trimmed :
  ∀ (P : Platform) (browser : nat → browser_run) (v : list N),
    outcome (extract_vin_with_playwright browser) = Ok (Some v) →
    (∃ k raw, (k ≤ 2)%nat ∧ v = strip raw ∧
              (visible_text (browser k) = Ok (Some raw) ∨
               revealed_text (browser k) = Ok (Some raw))) ∧
    (∀ c, head v = Some c → isspace c = false) ∧
    (∀ c, last v = Some c → isspace c = false).
Proof.
  intros P browser v Hv.
  assert (Hraw : ∃ k raw, (k ≤ 2)%nat ∧ v = strip raw ∧
                   (visible_text (browser k) = Ok (Some raw) ∨
                    revealed_text (browser k) = Ok (Some raw))).
  { rewrite extract_vin_eq in Hv. cbv zeta in Hv.
    destruct (outcome (vin_attempt (browser 0%nat))) as [v0|e0] eqn:H0.
    - cbn [outcome snd] in Hv. injection Hv as ->.
      destruct (vin_attempt_Some _ _ H0) as (raw & Hs & Ht).
      exists 0%nat, raw. repeat split; [lia|exact Hs|exact Ht].
    - destruct (outcome (vin_attempt (browser 1%nat))) as [v1|e1] eqn:H1.
      + cbn [outcome snd] in Hv. injection Hv as ->.
        destruct (vin_attempt_Some _ _ H1) as (raw & Hs & Ht).
        exists 1%nat, raw. repeat split; [lia|exact Hs|exact Ht].
      + cbn [outcome snd] in Hv.
        destruct (outcome (vin_attempt (browser 2%nat))) as [v2|e2] eqn:H2;
          [|discriminate Hv].
        injection Hv as ->.
        destruct (vin_attempt_Some _ _ H2) as (raw & Hs & Ht).
        exists 2%nat, raw. repeat split; [lia|exact Hs|exact Ht]. }
  split; [exact Hraw|].
  destruct Hraw as (k & raw & _ & -> & _). apply strip_trimmed.
Qed.

Lemma vin_is_trimmed_witness :
  ∃ k raw, (k ≤ 2)%nat ∧ py "WAUZZZ8K9DA000001" = @strip sample raw ∧
           (visible_text (vin_shown (py "  WAUZZZ8K9DA000001 ")) = Ok (Some raw) ∨
            revealed_text (vin_shown (py "  WAUZZZ8K9DA000001 ")) = Ok (Some raw)).
Proof.
  exact (proj1 (vin_is_trimmed sample
                  (fun _ => vin_shown (py "  WAUZZZ8K9DA000001 "))
                  (py "WAUZZZ8K9DA000001") eq_refl)).
Defined.

(** ** [fetch_car_details] at the edges *)

Section EdgeFacts.
Context `{Platform}.

Lemma find_all_no_descendants (test : node → bool) (soup : node) :
  descendants soup = [] → find_all test soup = [].
Proof. intros Hd. unfold find_all. rewrite Hd. reflexivity. Qed.

Lemma find_no_descendants (test : node → bool) (soup : node) :
  descendants soup = [] → find test soup = None.
Proof. intros Hd. unfold find. rewrite find_all_no_descendants by exact Hd. reflexivity. Qed.

Lemma extract_no_descendants (soup : node) (testid : list N) :
  descendants soup = [] → extract_data_testid_value soup testid = None.
Proof.
  intros Hd. unfold extract_data_testid_value.
  rewrite find_no_descendants by exact Hd. reflexivity.
Qed.

(** What the builder does on a page without a single node. *)
Lemma build_car_no_descendants (w : link_world) (url : list N) :
  descendants (html_parser (fetched (server w))) = [] →
  build_car w url =
  (trace (fetch_html_default (server w)) ++ trace (extract_vin_with_playwright (browser w)),
   match outcome (extract_vin_with_playwright (browser w)) with
   | Ok v =>
       Ok (new_Car url unknown (py "") 0 None None None 0 None None None
             (or_none v) None None None None None None None None None None None None)
   | Raise e => Raise e
   end).
Proof.
  intros Hd. unfold build_car. rewrite (fetch_html_default_eq (server w)).
  unfold bind at 1. set (soup := html_parser (fetched (server w))) in *.
  unfold find_price_tag, select_one_span_class, select_one_class, price_indicator_of,
    detail_labels, legacy_details, static_vin.
  rewrite !(extract_no_descendants soup) by exact Hd.
  rewrite !(find_no_descendants _ soup) by exact Hd.
  rewrite !(find_all_no_descendants _ soup) by exact Hd.
  cbn [tag_or parse_price parse_power truthy foldl py_or].
  rewrite !lookup_empty. cbn [truthy parse_year power_fallback andb].
  destruct (extract_vin_with_playwright (browser w)) as [tv [v|e]].
  - cbn. rewrite app_nil_r. unfold or_none.
    destruct (truthy v); reflexivity.
  - cbn. reflexivity.
Qed.
End EdgeFacts.

(** X9: a link whose page could not be fetched, or whose page parses to
    a document without a single node, is not dropped.  The VIN extractor
    is still run for it, and the call returns a record that holds
    the link, the title [unknown], an empty description, year 0, price
    0, power 0, no mileage, capacity, fuel, make or model, and the
    interactive VIN when there is one; every other attribute holds its
    default. *)
Theorem empty_page_gives_a_placeholder :
  ∀ (P : Platform) (w : link_world) (url : list N),
    descendants (html_parser (fetched (server w))) = [] →
    ∃ v, outcome (extract_vin_with_playwright (browser w)) = Ok v ∧
         fetch_car_details w url =
         (trace (fetch_html_default (server w)) ++
            trace (extract_vin_with_playwright (browser w)),
          Ok (Some (mkCar url unknown (py "") 0 None None None 0 None None
                      (Some unknown) (Some (if truthy v then default [] v else unknown))
                      (Some unknown) (Some unknown) (Some unknown) (Some 0)
                      (Some unknown) (Some unknown) (Some unknown) (Some unknown)
                      (Some unknown) (Some unknown) (Some (py "used"))
                      (Some unknown)))).
Proof.
  intros P w url Hd. destruct (extract_vin_returns (browser w)) as [v Hv].
  exists v. split; [exact Hv|].
  unfold fetch_car_details. rewrite (build_car_no_descendants w url Hd), Hv.
  cbn. rewrite app_nil_r. do 3 f_equal.
  destruct v as [[|c v]|]; reflexivity.
Qed.

Lemma empty_page_gives_a_placeholder_witness :
  ∃ car, outcome (@fetch_car_details sample (dead_worlds 0%nat) sample_url) = Ok (Some car) ∧
         vin car = Some unknown ∧ price_pln car = 0.
Proof.
  destruct (empty_page_gives_a_placeholder sample (dead_worlds 0%nat) sample_url)
    as (v & Hv & Heq).
  - reflexivity.
  - eexists. rewrite Heq. split; [reflexivity|].
    vm_compute in Hv. injection Hv as <-. split; reflexivity.
Defined.

(** X10: a price tag without a single digit makes the conversion of
    line 148 raise, before anything else is read: the link is dropped
    and, other than for every record that is produced, no browser is
    started for it.  The only trace of the call is that of fetching the
    page. *)
Theorem price_without_digits_drops_the_link :
  ∀ (P : Platform) (w : link_world) (url : list N) (price_tag : node),
    find_price_tag (html_parser (fetched (server w))) = Some price_tag →
    only_digits (text price_tag) = [] →
    fetch_car_details w url = (trace (fetch_html_default (server w)), Ok None) ∧
    count_events is_enter (trace (fetch_car_details w url)) = 0%nat.
Proof.
  intros P w url price_tag Hfind Hdigits.
  assert (Heq : fetch_car_details w url =
                (trace (fetch_html_default (server w)), Ok None)).
  { unfold fetch_car_details, build_car.
    rewrite (fetch_html_default_eq (server w)). unfold bind at 2.
    rewrite Hfind. cbn [parse_price]. rewrite Hdigits. cbn.
    rewrite !app_nil_r. reflexivity. }
  split; [exact Heq|]. rewrite Heq. cbn [trace fst].
  apply count_events_none.
  pose proof (fetch_html_loop_outside (server w) 2 1 (range 2)) as Hout.
  eapply Forall_impl; [exact Hout|]. intros e He. destruct e; try reflexivity.
  contradiction.
Qed.

Lemma price_without_digits_drops_the_link_witness :
  @fetch_car_details sample (world_of ask_html (vin_shown (py "WAUZZZ8K9DA000001")))
     sample_url = ([Request 0], Ok None).
Proof.
  apply (proj1 (price_without_digits_drops_the_link sample
                  (world_of ask_html (vin_shown (py "WAUZZZ8K9DA000001"))) sample_url
                  (tag_class_ "span" "offer-price__number" [str "Zapytaj o cene"])
                  eq_refl eq_refl)).
Defined.

(** ** The legacy table and the detail labels *)

Section TableFacts.
Context `{Platform}.

Lemma details_step_lookup (details : gmap (list N) (list N)) (div : node) (key : list N) :
  details_step details div !! key =
  match values_for key [div] with
  | [v] => Some v
  | _ => details !! key
  end.
Proof.
  unfold details_step, values_for, detail_entry. cbn [omap list_omap].
  destruct (find _ div) as [label|]; [|reflexivity].
  destruct (find _ div) as [value|]; [|reflexivity].
  destruct (decide (str_lower (strip (text label)) = key)) as [->|Hne].
  - rewrite lookup_insert. rewrite decide_True by reflexivity. reflexivity.
  - rewrite lookup_insert_ne by exact Hne. reflexivity.
Qed.

Lemma values_for_app (key : list N) (items1 items2 : list node) :
  values_for key (items1 ++ items2) = values_for key items1 ++ values_for key items2.
Proof. apply omap_app. Qed.

Lemma foldl_details_lookup (items : list node) (key : list N) :
  foldl details_step ∅ items !! key = last (values_for key items).
Proof.
  induction items as [|div items IH] using rev_ind; [apply lookup_empty|].
  rewrite foldl_app. cbn [foldl]. rewrite details_step_lookup, IH.
  rewrite values_for_app.
  destruct (values_for key [div]) as [|v [|v' vs]] eqn:Hdiv.
  - rewrite app_nil_r. reflexivity.
  - rewrite last_snoc. reflexivity.
  - exfalso. unfold values_for in Hdiv. cbn [omap list_omap] in Hdiv.
    destruct (detail_entry div) as [[k v0]|]; [|discriminate Hdiv].
    destruct (decide (k = key)); discriminate Hdiv.
Qed.

Lemma detail_label_step_kinds (acc : option (list N) * option (list N) * option (list N))
    (label : node) :
  let text := get_text_strip label in
  detail_label_step acc label =
  (if is_fuel text then Some text else acc.1.1,
   if is_mileage text then Some text else acc.1.2,
   if is_capacity text then Some text else acc.2).
Proof.
  destruct acc as [[fuel mileage] capacity]. cbv zeta.
  unfold detail_label_step, is_fuel, is_mileage, is_capacity.
  destruct (contains (py "km") _); [reflexivity|].
  destruct (contains (py "cm3") _); [reflexivity|].
  destruct (bool_decide _); reflexivity.
Qed.

Lemma last_of_snoc kind (texts : list (list N)) (t : list N) :
  last_of kind (texts ++ [t]) = if kind t then Some t else last_of kind texts.
Proof.
  unfold last_of. rewrite filter_app, filter_cons, filter_nil.
  destruct (kind t).
  - rewrite decide_True by reflexivity. apply last_snoc.
  - rewrite decide_False by discriminate. rewrite app_nil_r. reflexivity.
Qed.

Lemma foldl_detail_labels (labels : list node) :
  foldl detail_label_step (None, None, None) labels =
  (last_of is_fuel (get_text_strip <$> labels),
   last_of is_mileage (get_text_strip <$> labels),
   last_of is_capacity (get_text_strip <$> labels)).
Proof.
  induction labels as [|label labels IH] using rev_ind; [reflexivity|].
  rewrite foldl_app. cbn [foldl]. rewrite detail_label_step_kinds, IH.
  cbn [fst snd]. rewrite fmap_app. cbn [fmap list_fmap].
  rewrite !last_of_snoc. reflexivity.
Qed.

Lemma contains_nonempty (sub s : list N) : sub ≠ [] → contains sub s = true → s ≠ [].
Proof.
  intros Hsub Hc ->. destruct sub as [|a sub]; [contradiction|]. discriminate Hc.
Qed.

Lemma last_of_kind kind (texts : list (list N)) (t : list N) :
  last_of kind texts = Some t → kind t = true ∧ t ∈ texts.
Proof.
  unfold last_of. intros Hlast. apply last_Some in Hlast as [l Hl].
  assert (Hin : t ∈ filter (fun t => kind t = true) texts).
  { rewrite Hl. apply elem_of_app. right. constructor. }
  apply list_elem_of_filter in Hin. exact Hin.
Qed.
End TableFacts.

(** X11: the legacy table of [fetch_car_details].  The value the table
    holds for a key is the trimmed value of the last item, in document
    order, whose label, trimmed and in lower case, is the key: a later
    item overwrites an earlier one.  Items that lack a label or a value
    are skipped, and a key that no item gives is not in the table. *)
Theorem legacy_table_last_wins :
  ∀ (P : Platform) (soup : node) (key : list N),
    legacy_details soup !! key = last (values_for key (detail_items soup)) ∧
    (∀ before item after value,
       detail_items soup = before ++ item :: after →
       detail_entry item = Some (key, value) →
       values_for key after = [] →
       legacy_details soup !! key = Some value) ∧
    (values_for key (detail_items soup) = [] → legacy_details soup !! key = None).
Proof.
  intros P soup key.
  assert (Heq : legacy_details soup !! key = last (values_for key (detail_items soup))).
  { unfold legacy_details. fold (detail_items soup). apply foldl_details_lookup. }
  split; [exact Heq|]. split.
  - intros before item after value Hitems Hentry Hafter. rewrite Heq, Hitems.
    change (item :: after) with ([item] ++ after). rewrite !values_for_app, Hafter.
    unfold values_for at 2. cbn [omap list_omap].
    rewrite Hentry, decide_True by reflexivity. rewrite app_nil_r. apply last_snoc.
  - intros Hnone. rewrite Heq, Hnone. reflexivity.
Qed.

Lemma legacy_table_last_wins_witness :
  @legacy_details site details_page !! py "rok produkcji" = Some (py "2016") ∧
  @legacy_details site details_page !! py "moc" = None.
Proof.
  split.
  - apply (proj1 (proj2 (legacy_table_last_wins site details_page (py "rok produkcji")))
             [params_item [params_label "Rok produkcji"; params_value "2015"];
              params_item [params_label "Kolor"; params_value " Czarny "]]
             (params_item [params_label "Rok Produkcji"; params_value "2016"])
             [params_item [params_label "Moc"]]);
      vm_compute; reflexivity.
  - apply (proj2 (proj2 (legacy_table_last_wins site details_page (py "moc")))).
    vm_compute. reflexivity.
Defined.

(** X12: the detail labels of a record.  The mileage of a produced
    record is the text of the last label that contains [km]; its engine
    capacity is the text of the last label that contains [cm3] and not
    [km]; its fuel type is the text of the last label that contains
    neither and whose lower-case form is one of the six fuel names.  A
    later label of a kind overwrites an earlier one, and a record
    without a label of a kind holds [None] there. *)
Theorem detail_labels_last_of_a_kind :
  ∀ (P : Platform) (w : link_world) (url : list N) (car : Car),
    outcome (fetch_car_details w url) = Ok (Some car) →
    let texts := get_text_strip <$> detail_labels (html_parser (fetched (server w))) in
    mileage_km car = last_of is_mileage texts ∧
    engine_capacity car = last_of is_capacity texts ∧
    fuel_type car = or_none (last_of is_fuel texts) ∧
    (∀ m, mileage_km car = Some m → contains (py "km") m = true) ∧
    (∀ c, engine_capacity car = Some c →
          contains (py "cm3") c = true ∧ contains (py "km") c = false) ∧
    (∀ f, fuel_type car = Some f → str_lower f ∈ fuel_names).
Proof.
  intros P w url car Hcar texts.
  apply fetch_car_details_Some in Hcar.
  destruct (build_car_inv w url car Hcar)
    as (html & price & power0 & year' & power & vin' & indicator & range &
        Hhtml & _ & _ & _ & _ & _ & _ & Hrecord).
  assert (Hfetched : html = fetched (server w)).
  { unfold fetched. rewrite Hhtml. reflexivity. }
  subst html. rewrite foldl_detail_labels in Hrecord. cbn [fst snd] in Hrecord.
  fold texts in Hrecord.
  assert (Hm : mileage_km car = last_of is_mileage texts).
  { rewrite Hrecord. cbn. unfold or_none.
    destruct (last_of is_mileage texts) as [m|] eqn:Hlast; [|reflexivity].
    apply last_of_kind in Hlast as [Hkind _].
    apply (contains_nonempty (py "km")) in Hkind; [|discriminate].
    destruct m; [contradiction|reflexivity]. }
  assert (Hc : engine_capacity car = last_of is_capacity texts).
  { rewrite Hrecord. cbn. unfold or_none.
    destruct (last_of is_capacity texts) as [c|] eqn:Hlast; [|reflexivity].
    apply last_of_kind in Hlast as [Hkind _].
    apply andb_prop in Hkind as [_ Hkind].
    apply (contains_nonempty (py "cm3")) in Hkind; [|discriminate].
    destruct c; [contradiction|reflexivity]. }
  assert (Hf : fuel_type car = or_none (last_of is_fuel texts)).
  { rewrite Hrecord. reflexivity. }
  split; [exact Hm|]. split; [exact Hc|]. split; [exact Hf|]. split; [|split].
  - intros m Hsome. rewrite Hm in Hsome. apply last_of_kind in Hsome as [Hkind _].
    exact Hkind.
  - intros c Hsome. rewrite Hc in Hsome. apply last_of_kind in Hsome as [Hkind _].
    apply andb_prop in Hkind as [Hkm Hcm]. apply negb_true_iff in Hkm.
    split; [exact Hcm|exact Hkm].
  - intros f Hsome. rewrite Hf in Hsome. unfold or_none in Hsome.
    destruct (truthy _); [|discriminate Hsome].
    apply last_of_kind in Hsome as [Hkind _].
    apply andb_prop in Hkind as [_ Hkind]. apply bool_decide_eq_true_1 in Hkind.
    exact Hkind.
Qed.

Lemma detail_labels_last_of_a_kind_witness :
  ∃ car, outcome (@fetch_car_details site (world_of details_html no_browser) sample_url)
         = Ok (Some car) ∧
         mileage_km car = Some (py "200 000 km") ∧
         engine_capacity car = Some (py "1 984 cm3") ∧
         fuel_type car = Some (py "Diesel").
Proof.
  eexists. split; [vm_compute; reflexivity|].
  destruct (detail_labels_last_of_a_kind site (world_of details_html no_browser)
              sample_url _ eq_refl) as (Hm & Hc & Hf & _).
  split; [|split].
  - etransitivity; [exact Hm|]. vm_compute. reflexivity.
  - etransitivity; [exact Hc|]. vm_compute. reflexivity.
  - etransitivity; [exact Hf|]. vm_compute. reflexivity.
Defined.

(** ** The numbers of a record *)

Lemma latin_digits_are_decimal parser : @digits_are_decimal (latin parser).
Proof.
  intros c Hc. unfold isdecimal, decimal_value, latin, latin_isdecimal,
    latin_decimal_value, between in *.
  apply andb_prop in Hc as [Hlo Hhi].
  apply N.leb_le in Hlo. apply N.leb_le in Hhi. lia.
Qed.

Lemma latin_ascii_digits_valued parser : @ascii_digits_valued (latin parser).
Proof.
  intros d Hd. unfold decimal_value, latin, latin_decimal_value.
  rewrite Z2N.id by lia. lia.
Qed.

Section NumberFacts.
Context `{Platform}.

Lemma foldl_digits_bounds (d : list N) (a : Z) :
  digits_are_decimal → Forall (fun c => isdecimal c = true) d → 0 ≤ a →
  0 ≤ foldl (fun acc c => 10 * acc + decimal_value c) a d < (a + 1) * 10 ^ Z.of_nat (length d).
Proof.
  intros Hlaw Hd. revert a. induction Hd as [|c d Hc _ IH]; intros a Ha.
  - simpl. lia.
  - cbn [foldl length]. specialize (Hlaw c Hc).
    assert (Ha' : 0 ≤ 10 * a + decimal_value c) by lia.
    specialize (IH (10 * a + decimal_value c) Ha').
    rewrite Nat2Z.inj_succ, Z.pow_succ_r by lia.
    assert (0 < 10 ^ Z.of_nat (length d)) by (apply Z.pow_pos_nonneg; lia).
    nia.
Qed.

Lemma digits_value_bounds (d : list N) :
  digits_are_decimal → Forall (fun c => isdecimal c = true) d →
  0 ≤ digits_value d < 10 ^ Z.of_nat (length d).
Proof.
  intros Hlaw Hd. unfold digits_value.
  assert (H0 : 0 ≤ 0) by lia.
  pose proof (foldl_digits_bounds d 0 Hlaw Hd H0). lia.
Qed.

Lemma first_number_nonneg (text : option (list N)) (n : Z) :
  digits_are_decimal → first_number text = Some n → 0 ≤ n.
Proof.
  intros Hlaw Hn. unfold first_number in Hn.
  destruct (truthy text); [|discriminate Hn].
  destruct (search_digits _) as [d|] eqn:Hd; [|discriminate Hn].
  injection Hn as <-. apply search_digits_Some in Hd as (_ & Hall & _).
  apply digits_value_bounds; assumption.
Qed.

Lemma link_kept (w : link_world) (url : list N) (car : Car) :
  outcome (fetch_car_details w url) = Ok (Some car) → link car = url.
Proof.
  intros Hcar. apply fetch_car_details_Some in Hcar.
  destruct (build_car_inv w url car Hcar)
    as (html & price & power0 & year' & power & vin' & indicator & range &
        _ & _ & _ & _ & _ & _ & _ & ->).
  reflexivity.
Qed.

Lemma records_keep_links (f : nat → list N → option Car) (links : list (list N)) :
  (∀ k url car, f k url = Some car → link car = url) →
  link <$> omap id (imap f links) `sublist_of` links.
Proof.
  revert f. induction links as [|url links IH]; intros f Hf; [constructor|].
  cbn [imap]. cbn [omap list_omap]. unfold id at 1.
  destruct (f 0%nat url) as [car|] eqn:Hcar.
  - cbn [fmap list_fmap]. rewrite (Hf _ _ _ Hcar). apply sublist_skip.
    apply IH. intros k url' car'. apply Hf.
  - apply sublist_cons. apply IH. intros k url' car'. apply Hf.
Qed.
Lemma record_numbers (w : link_world) (url : list N) (car : Car) :
  digits_are_decimal →
  outcome (fetch_car_details w url) = Ok (Some car) →
  0 ≤ year car ≤ 9999 ∧ 0 ≤ price_pln car ∧
  ∃ power, engine_power car = Some power ∧ 0 ≤ power.
Proof.
  intros Hlaw Hcar. apply fetch_car_details_Some in Hcar.
  destruct (build_car_inv w url car Hcar)
    as (html & price & power0 & year' & power & vin' & indicator & range &
        _ & Hprice & Hpower0 & Hyear & Hpower & _ & _ & ->).
  cbn [year price_pln engine_power new_Car post_init].
  split; [|split].
  - rewrite parse_year_eq in Hyear. injection Hyear as <-.
    destruct (truthy _); [|lia].
    destruct (search_4digits _) as [d|] eqn:Hd; [|lia].
    apply search_4digits_Some in Hd as (Hlen & Hall & _).
    pose proof (digits_value_bounds d Hlaw Hall) as Hb. rewrite Hlen in Hb.
    change (10 ^ Z.of_nat 4) with 10000 in Hb. lia.
  - unfold parse_price in Hprice.
    destruct (find_price_tag _) as [t|]; [|injection Hprice as <-; lia].
    destruct (only_digits (text t)) as [|c d] eqn:Hd; [discriminate Hprice|].
    injection Hprice as <-. rewrite <- Hd.
    apply digits_value_bounds; [exact Hlaw|apply only_digits_all].
  - rewrite parse_power_eq in Hpower0. injection Hpower0 as <-.
    rewrite power_fallback_eq in Hpower. injection Hpower as <-.
    destruct (bool_decide _).
    + destruct (first_number (_ !! _)) as [q|] eqn:Hq.
      * exists q. split; [reflexivity|]. eapply first_number_nonneg; eassumption.
      * destruct (first_number (extract_data_testid_value _ _)) as [q|] eqn:Hq0.
        -- exists q. split; [reflexivity|]. eapply first_number_nonneg; eassumption.
        -- exists 0. split; [reflexivity|lia].
    + destruct (first_number (extract_data_testid_value _ _)) as [q|] eqn:Hq0.
      * exists q. split; [reflexivity|]. eapply first_number_nonneg; eassumption.
      * exists 0. split; [reflexivity|lia].
Qed.
End NumberFacts.

(** X13: the numbers of a record, on a platform whose decimal digits
    stand for the values 0 to 9 (as Python's do).  In every record that
    is produced the year is between 0 and 9999, the price is not
    negative and the engine power is a number that is not negative. *)
Theorem numbers_in_range :
  ∀ (P : Platform) (w : link_world) (url : list N) (car : Car),
    digits_are_decimal →
    outcome (fetch_car_details w url) = Ok (Some car) →
    0 ≤ year car ≤ 9999 ∧ 0 ≤ price_pln car ∧
    ∃ power, engine_power car = Some power ∧ 0 ≤ power.
Proof. intros P w url car. apply record_numbers. Qed.

Lemma numbers_in_range_witness :
  0 ≤ year bare_car ≤ 9999 ∧ 0 ≤ price_pln bare_car ∧
  ∃ power, engine_power bare_car = Some power ∧ 0 ≤ power.
Proof.
  apply (numbers_in_range sample (world_of bare_html no_browser) sample_url bare_car).
  - apply latin_digits_are_decimal.
  - vm_compute. reflexivity.
Defined.

(** X14: the links of the records.  Every record that [scrape] returns
    holds the link it was fetched from: the links of the records are, in
    order, links of the listing pages, each used at most as often as it
    was listed; so each of them begins with [http] and contains
    [/oferta/]. *)
Theorem records_keep_their_links :
  ∀ (P : Platform) (max_pages : Z) (pages : nat → nat → response)
    (worlds : nat → link_world) (cars : list Car),
    outcome (scrape max_pages pages worlds) = Ok cars →
    link <$> cars `sublist_of` listed_links max_pages pages ∧
    Forall (fun car => startswith (py "http") (link car) = true ∧
                       contains (py "/oferta/") (link car) = true) cars.
Proof.
  intros P max_pages pages worlds cars Hcars.
  rewrite scrape_eq in Hcars. cbn [outcome snd] in Hcars. injection Hcars as <-.
  assert (Hsub : link <$> omap id (imap (fun k url =>
                    record_of (fetch_car_details (worlds k) url))
                    (listed_links max_pages pages))
                 `sublist_of` listed_links max_pages pages).
  { apply records_keep_links. intros k url car Hrec. apply (link_kept (worlds k)).
    rewrite fetch_car_details_returns, Hrec. reflexivity. }
  split; [exact Hsub|].
  apply Forall_forall. intros car Hcar.
  assert (Hin : link car ∈ listed_links max_pages pages).
  { eapply elem_of_sublist; [|exact Hsub]. apply list_elem_of_fmap_2, Hcar. }
  unfold listed_links in Hin.
  apply list_elem_of_In, in_flat_map in Hin as (page & _ & Hin).
  apply list_elem_of_In in Hin. unfold page_links in Hin.
  destruct (extracted_link_shape _ _ Hin) as (Hhttp & Hoferta & _).
  split; assumption.
Qed.

Lemma records_keep_their_links_witness :
  link <$> [placeholder audi_link; placeholder bmw_link]
    `sublist_of` @listed_links site 1 listing_pages.
Proof.
  apply (proj1 (records_keep_their_links site 1 listing_pages dead_worlds
                  [placeholder audi_link; placeholder bmw_link]
                  ltac:(vm_compute; reflexivity))).
Defined.

(** ** The record in the schema *)

Section SchemaFacts.
Context `{Platform}.

Lemma digits_value_snoc (d : list N) (c : N) :
  digits_value (d ++ [c]) = 10 * digits_value d + decimal_value c.
Proof. unfold digits_value. rewrite foldl_app. reflexivity. Qed.

Lemma str_pos_aux_S (fuel : nat) (n : Z) (acc : list N) :
  str_pos_aux (S fuel) n acc =
  if n / 10 =? 0 then Z.to_N (48 + n mod 10) :: acc
  else str_pos_aux fuel (n / 10) (Z.to_N (48 + n mod 10) :: acc).
Proof. reflexivity. Qed.

Lemma str_pos_aux_digits (fuel : nat) (n : Z) (acc : list N) :
  ascii_digits_valued → 0 ≤ n < 10 ^ Z.of_nat (S fuel) →
  ∃ d, str_pos_aux (S fuel) n acc = d ++ acc ∧ d ≠ [] ∧ digits_value d = n.
Proof.
  intros Hlaw. revert n acc. induction fuel as [|fuel IH]; intros n acc Hn.
  - change (10 ^ Z.of_nat 1) with 10 in Hn. rewrite str_pos_aux_S.
    rewrite Z.div_small by lia. cbn [Z.eqb].
    exists [Z.to_N (48 + n mod 10)]. split; [reflexivity|]. split; [discriminate|].
    unfold digits_value. cbn [foldl]. rewrite Z.mod_small by lia.
    rewrite Hlaw by lia. lia.
  - rewrite str_pos_aux_S.
    assert (Hmod : 0 ≤ n mod 10 ≤ 9) by (pose proof (Z.mod_pos_bound n 10); lia).
    assert (Hdiv : n = 10 * (n / 10) + n mod 10) by (apply Z.div_mod; lia).
    destruct (n / 10 =? 0) eqn:Hq.
    + apply Z.eqb_eq in Hq.
      exists [Z.to_N (48 + n mod 10)]. split; [reflexivity|]. split; [discriminate|].
      unfold digits_value. cbn [foldl]. rewrite Hlaw by exact Hmod. lia.
    + assert (Hn' : 0 ≤ n / 10 < 10 ^ Z.of_nat (S fuel)).
      { split; [apply Z.div_pos; lia|].
        apply Z.div_lt_upper_bound; [lia|].
        rewrite (Nat2Z.inj_succ (S fuel)), Z.pow_succ_r in Hn by lia. lia. }
      destruct (IH (n / 10) (Z.to_N (48 + n mod 10) :: acc) Hn') as (d & Heq & Hne & Hval).
      exists (d ++ [Z.to_N (48 + n mod 10)]).
      split; [rewrite Heq, <- app_assoc; reflexivity|].
      split; [destruct d; discriminate|].
      rewrite digits_value_snoc, Hval, Hlaw by exact Hmod. lia.
Qed.

(** [int(str(n)) == n] for the numbers of a record. *)
Lemma py_int_py_str (n : Z) :
  ascii_digits_valued → 0 ≤ n → py_int (py_str n) = Ok n.
Proof.
  intros Hlaw Hn. unfold py_str. rewrite (proj2 (Z.ltb_ge n 0)) by exact Hn.
  rewrite Nat.add_1_r.
  destruct (str_pos_aux_digits (Z.to_nat (Z.log2 n)) n [] Hlaw) as (d & Heq & Hne & Hval).
  - split; [exact Hn|]. rewrite Nat2Z.inj_succ, Z2Nat.id by apply Z.log2_nonneg.
    destruct (Z.eq_dec n 0) as [->|Hpos]; [reflexivity|].
    assert (Hlog : n < 2 ^ Z.succ (Z.log2 n)) by (apply Z.log2_spec; lia).
    eapply Z.lt_le_trans; [exact Hlog|].
    apply Z.pow_le_mono_l. lia.
  - rewrite Heq, app_nil_r. rewrite py_int_digits by exact Hne. rewrite Hval. reflexivity.
Qed.
End SchemaFacts.

(** X15: a constructed record in the schema.  For every record that went
    through [__post_init__], the entries [door_count], [vin],
    [body_type], [color], [gearbox], [transmission] and
    [date_registration] of the output are strings, [engine_power] is a
    number, and so are [price_indicator] and [price_range] strings: none
    of them is [None].  The [date_registration] entry is the
    registration date of the history block; the date of first
    registration is used only when the history block holds the empty
    string, so a record built without a history block says [unknown]
    there whatever its date of first registration is.  In the same way
    the default [pl] of [country_origin] is out of reach for a record
    built without a country: its entry is [unknown] in lower case. *)
Theorem constructed_record_in_the_schema :
  ∀ (P : Platform) (c : Car),
    let out := transform_car_to_schema (post_init c) in
    let param := fun key => get_item (py "params") out ≫= get_item key in
    (∀ key, key ∈ [py "door_count"; py "vin"; py "body_type"; py "color";
                   py "gearbox"; py "transmission"] →
            ∃ s, param key = Some (VStr s)) ∧
    (∃ n, param (py "engine_power") = Some (VInt n)) ∧
    (∃ s, get_item (py "price_indicator") out = Some (VStr s)) ∧
    (∃ s, get_item (py "price_range") out = Some (VStr s)) ∧
    param (py "date_registration") =
      Some (VStr (match registration_date_history c with
                  | Some (x :: s) => x :: s
                  | Some [] => default unknown (date_registration c)
                  | None => unknown
                  end)) ∧
    (country_origin c = None →
     param (py "country_origin") = Some (VStr (str_lower unknown))).
Proof.
  intros P c out param. subst param out. cbv beta.
  destruct c as [link0 full_name0 description0 year0 mileage0 capacity0 fuel0 price0
                 make0 model0 door0 vin0 body0 color0 gearbox0 power0 date0
                 transmission0 indicator0 range0 accident0 country0 new_used0 history0].
  cbn [registration_date_history date_registration country_origin].
  split; [|split; [|split; [|split; [|split]]]].
  - intros key Hkey.
    repeat (apply elem_of_cons in Hkey as [->|Hkey];
            [first [destruct door0 | idtac]; first [destruct vin0 | idtac];
             first [destruct body0 | idtac]; first [destruct color0 | idtac];
             first [destruct gearbox0 | idtac]; first [destruct transmission0 | idtac];
             eexists; vm_compute; reflexivity|]).
    inversion Hkey.
  - destruct power0; eexists; vm_compute; reflexivity.
  - destruct indicator0; eexists; vm_compute; reflexivity.
  - destruct range0; eexists; vm_compute; reflexivity.
  - destruct history0 as [[|x s]|]; [destruct date0| |]; vm_compute; reflexivity.
  - intros ->. vm_compute. reflexivity.
Qed.

Lemma constructed_record_in_the_schema_witness :
  (get_item (py "params") (@transform_car_to_schema sample bare_car)
     ≫= get_item (py "country_origin")) = Some (VStr (py "unknown")).
Proof.
  apply (proj2 (proj2 (proj2 (proj2 (proj2
           (constructed_record_in_the_schema sample
              (mkCar sample_url (py "Audi A4") (py "") 0 None None None 100000 None None
                 None None None None None None None None None None None None None
                 None))))))).
  reflexivity.
Defined.

(** X16: the numbers of a record survive the schema.  On a platform
    whose decimal digits stand for 0 to 9 and whose ASCII digits have
    their usual values, the [year] entry and the price entry of the
    output of a produced record are strings that [int] reads back as the
    year and the price of the record. *)
Theorem numbers_survive_the_schema :
  ∀ (P : Platform) (w : link_world) (url : list N) (car : Car),
    digits_are_decimal → ascii_digits_valued →
    outcome (fetch_car_details w url) = Ok (Some car) →
    let params := get_item (py "params") (transform_car_to_schema car) in
    ∃ y p,
      (params ≫= get_item (py "year")) = Some (VStr y) ∧
      py_int y = Ok (year car) ∧
      ((params ≫= get_item (py "price")) ≫= get_item (py "1")) = Some (VStr p) ∧
      py_int p = Ok (price_pln car).
Proof.
  intros P w url car Hdec Hval Hcar params. subst params.
  destruct (record_numbers w url car Hdec Hcar) as (Hyear & Hprice & _).
  exists (py_str (year car)), (py_str (price_pln car)).
  split; [vm_compute; reflexivity|].
  split; [apply py_int_py_str; [exact Hval|lia]|].
  split; [vm_compute; reflexivity|].
  apply py_int_py_str; [exact Hval|lia].
Qed.

Lemma numbers_survive_the_schema_witness :
  ∃ y p,
    (get_item (py "params") (@transform_car_to_schema sample bare_car)
       ≫= get_item (py "year")) = Some (VStr y) ∧
    @py_int sample y = Ok 0 ∧
    ((get_item (py "params") (@transform_car_to_schema sample bare_car)
        ≫= get_item (py "price")) ≫= get_item (py "1")) = Some (VStr p) ∧
    @py_int sample p = Ok 100000.
Proof.
  apply (numbers_survive_the_schema sample (world_of bare_html no_browser) sample_url
           bare_car (latin_digits_are_decimal sample_parser)
           (latin_ascii_digits_valued sample_parser)).
  vm_compute. reflexivity.
Defined.

(** ** The estimated price range of a record *)

Section RangeFacts.
Context `{Platform}.

Lemma estimate_Some (price : Z) (indicator_type : list N) (lo hi : Z) :
  estimate price indicator_type = Ok (Some (lo, hi)) →
  indicator_type ∈ [py "ABOVE"; py "BELOW"; py "IN"] ∧
  (indicator_type = py "ABOVE" → hi = price) ∧
  (indicator_type = py "BELOW" → lo = price).
Proof.
  unfold estimate. intros Hest.
  destruct (decide (indicator_type = py "ABOVE")) as [->|HA].
  { destruct (int_times price f_0_85); [|discriminate Hest].
    injection Hest as <- <-. split; [constructor|]. split; [reflexivity|discriminate]. }
  destruct (decide (indicator_type = py "BELOW")) as [->|HB].
  { destruct (int_times price f_1_15); [|discriminate Hest].
    injection Hest as <- <-.
    split; [do 1 constructor; constructor|]. split; [discriminate|reflexivity]. }
  destruct (decide (indicator_type = py "IN")) as [->|HI]; [|discriminate Hest].
  split; [do 2 constructor; constructor|]. split; discriminate.
Qed.

Lemma price_indicator_of_range (soup : node) (indicator : option (list N)) (r : list N) :
  price_indicator_of soup = Ok (indicator, Some r) →
  ∃ price_tag indicator_type price lo hi,
    find_price_tag soup = Some price_tag ∧
    py_int (only_digits (text price_tag)) = Ok price ∧
    estimate price indicator_type = Ok (Some (lo, hi)) ∧
    r = format_range (lo, hi).
Proof.
  unfold price_indicator_of. intros Hind.
  destruct (find _ soup) as [tag|]; [|discriminate Hind].
  cbv zeta in Hind.
  destruct (search_indicator _) as [indicator_type|]; [|discriminate Hind].
  destruct (find_price_tag soup) as [price_tag|]; [|discriminate Hind].
  unfold estimate_price_range, except_value_attribute in Hind.
  destruct (py_int (only_digits (text price_tag))) as [price|e] eqn:Hprice.
  - cbn [and_then] in Hind.
    destruct (estimate price indicator_type) as [[[lo hi]|]|e] eqn:Hest.
    + cbn in Hind. injection Hind as _ <-.
      exists price_tag, indicator_type, price, lo, hi. repeat split; assumption.
    + cbn in Hind. discriminate Hind.
    + cbn in Hind. destruct e; discriminate Hind.
  - cbn in Hind. destruct e; discriminate Hind.
Qed.
End RangeFacts.

(** X17: the estimated price range of a record.  When the page gives a
    range, the record holds it; the range was computed for an indicator
    of one of the three types [ABOVE], [BELOW] and [IN], from the price
    of the record itself, and it reads [lower-upper PLN].  For [ABOVE]
    the upper end is the price of the record, for [BELOW] the lower end
    is. *)
Theorem range_is_built_on_the_price :
  ∀ (P : Platform) (w : link_world) (url : list N) (car : Car)
    (indicator : option (list N)) (r : list N),
    outcome (fetch_car_details w url) = Ok (Some car) →
    price_indicator_of (html_parser (fetched (server w))) = Ok (indicator, Some r) →
    price_range car = Some r ∧
    ∃ indicator_type lo hi,
      estimate (price_pln car) indicator_type = Ok (Some (lo, hi)) ∧
      r = py_str lo ++ py "-" ++ py_str hi ++ py " PLN" ∧
      indicator_type ∈ [py "ABOVE"; py "BELOW"; py "IN"] ∧
      (indicator_type = py "ABOVE" → hi = price_pln car) ∧
      (indicator_type = py "BELOW" → lo = price_pln car).
Proof.
  intros P w url car indicator r Hcar Hind.
  apply fetch_car_details_Some in Hcar.
  destruct (build_car_inv w url car Hcar)
    as (html & price & power0 & year' & power & vin' & indicator' & range &
        Hhtml & Hprice & _ & _ & _ & _ & Hind' & ->).
  assert (Hfetched : html = fetched (server w)).
  { unfold fetched. rewrite Hhtml. reflexivity. }
  subst html. rewrite Hind in Hind'. injection Hind' as <- <-.
  cbn [price_range price_pln new_Car post_init if_none].
  split; [reflexivity|].
  destruct (price_indicator_of_range _ _ _ Hind)
    as (price_tag & indicator_type & price' & lo & hi & Htag & Hprice' & Hest & ->).
  unfold parse_price in Hprice. rewrite Htag, Hprice' in Hprice.
  injection Hprice as ->.
  destruct (estimate_Some _ _ _ _ Hest) as (Hin & Habove & Hbelow).
  exists indicator_type, lo, hi. repeat split; assumption.
Qed.

Lemma range_is_built_on_the_price_witness :
  ∃ indicator_type lo hi,
    estimate 100000 indicator_type = Ok (Some (lo, hi)) ∧
    py "100000-114999 PLN" = py_str lo ++ py "-" ++ py_str hi ++ py " PLN" ∧
    indicator_type ∈ [py "ABOVE"; py "BELOW"; py "IN"] ∧
    (indicator_type = py "ABOVE" → hi = 100000) ∧
    (indicator_type = py "BELOW" → lo = 100000).
Proof.
  apply (proj2 (range_is_built_on_the_price sample (world_of below_html no_browser)
                  sample_url
                  (new_Car sample_url (py "Audi A4") (py "") 0 None None None 100000
                     None None None None None None None None None None
                     (Some (py "Ponizej sredniej")) (Some (py "100000-114999 PLN"))
                     None None None None)
                  (Some (py "Ponizej sredniej")) (py "100000-114999 PLN")
                  ltac:(vm_compute; reflexivity) ltac:(vm_compute; reflexivity))).
Defined.

(** ** What one task costs *)

Section TaskFacts.
Context `{Platform}.

(** The trace of a task: the requests for the page, then the browser
    sessions for the VIN unless the price could not be read. *)
Lemma fetch_car_details_trace (w : link_world) (url : list N) :
  trace (fetch_car_details w url) = trace (fetch_html_default (server w)) ∨
  trace (fetch_car_details w url) =
    trace (fetch_html_default (server w)) ++ trace (extract_vin_with_playwright (browser w)).
Proof.
  unfold fetch_car_details.
  assert (Hbuild : trace (build_car w url) = trace (fetch_html_default (server w)) ∨
                   trace (build_car w url) =
                   trace (fetch_html_default (server w)) ++
                   trace (extract_vin_with_playwright (browser w))).
  { unfold build_car. rewrite (fetch_html_default_eq (server w)). cbn [trace fst].
    generalize (trace (fetch_html_default (server w))). intros tf.
    destruct (extract_vin_with_playwright (browser w)) as [tv rv].
    unfold bind, lift, ret. cbn [trace fst].
    destruct (parse_price _); [|left; cbn; rewrite ?app_nil_r; reflexivity].
    destruct (parse_power _); [|left; cbn; rewrite ?app_nil_r; reflexivity].
    destruct (foldl detail_label_step _ _) as [[fuel mileage] capacity].
    destruct (parse_year _); [|left; cbn; rewrite ?app_nil_r; reflexivity].
    destruct (power_fallback _ _); [|left; cbn; rewrite ?app_nil_r; reflexivity].
    right. destruct rv as [v|e]; [|cbn; rewrite ?app_nil_r; reflexivity].
    destruct (price_indicator_of _) as [[indicator range]|];
      cbn; rewrite ?app_nil_r; reflexivity. }
  destruct (build_car w url) as [tb [car|e]];
    cbn in *; rewrite ?app_nil_r; exact Hbuild.
Qed.

Lemma browser_events_requests (t : list event) :
  Forall browser_event t → requests t = [].
Proof.
  induction 1 as [|e t He _ IH]; [reflexivity|].
  destruct He as [-> | ->]; exact IH.
Qed.

Lemma vin_attempt_requests (b : browser_run) : requests (trace (vin_attempt b)) = [].
Proof.
  destruct (vin_attempt_trace b) as [(e & _ & Heq)|(_ & Htr & _)].
  - rewrite Heq. reflexivity.
  - rewrite Htr. change (PlaywrightEnter :: ?l) with ([PlaywrightEnter] ++ l).
    rewrite !requests_app, (browser_events_requests _ (vin_session_events b)).
    reflexivity.
Qed.

Lemma extract_vin_requests (browser : nat → browser_run) :
  requests (trace (extract_vin_with_playwright browser)) = [].
Proof.
  pose proof (extract_vin_eq browser) as Heq. cbv zeta beta in Heq. rewrite Heq.
  pose proof (vin_attempt_requests (browser 0%nat)) as R0.
  pose proof (vin_attempt_requests (browser 1%nat)) as R1.
  pose proof (vin_attempt_requests (browser 2%nat)) as R2.
  destruct (outcome (vin_attempt (browser 0%nat)));
    [|destruct (outcome (vin_attempt (browser 1%nat)))];
    cbn [trace fst];
    repeat (rewrite ?requests_app, ?R0, ?R1, ?R2; cbn [requests omap list_omap app]);
    fold (requests (trace (vin_attempt (browser 1%nat))));
    fold (requests (trace (vin_attempt (browser 2%nat))));
    rewrite ?requests_app, ?R0, ?R1, ?R2; reflexivity.
Qed.
End TaskFacts.

(** X18: what one task costs.  A call of [fetch_car_details] makes at
    most two requests for its page and starts at most three Playwright
    sessions, and the time it spends in [asyncio.sleep] is at most
    twenty seconds: ten for the page and ten for the VIN. *)
Theorem task_cost :
  ∀ (P : Platform) (w : link_world) (url : list N),
    (length (requests (trace (fetch_car_details w url))) ≤ 2)%nat ∧
    (count_events is_enter (trace (fetch_car_details w url)) ≤ 3)%nat ∧
    0 ≤ total_wait (trace (fetch_car_details w url)) ≤ 20000.
Proof.
  intros P w url.
  destruct (fetch_html_default_cost (server w)) as (Hreq & Hwait & Henter).
  destruct (extract_vin_cost (browser w)) as (Hsessions & _ & Hpause).
  pose proof (extract_vin_requests (browser w)) as Hnone.
  destruct (fetch_car_details_trace w url) as [-> | ->].
  - rewrite Henter. split; [exact Hreq|]. split; lia.
  - rewrite requests_app, count_events_app, total_wait_app, Hnone, Henter, app_nil_r.
    split; [exact Hreq|]. split; [exact Hsessions|lia].
Qed.
